(** * User CRUD handlers over a DynamoDB table: a shallow embedding

    The development follows the Python sources

    - [src/utils/dynamodb.py]               (module [Dynamodb])
    - [src/functions/create_user/lambda_function.py]  (module [CreateUser])
    - [src/functions/get_user/lambda_function.py]     (module [GetUser])
    - [src/functions/list_users/lambda_function.py]   (module [ListUsers])
    - [src/functions/update_user/lambda_function.py]  (module [UpdateUser])

    Python values are the values [json.loads] can produce.  A Python
    [dict] with string keys is a [gmap string pyval]; its iteration order
    is abstracted to the order of [map_to_list].  Strings are modelled on
    ASCII code points.  Exceptions are explicit: pure code returns a
    [result], code that reads the clock, draws an identifier or calls the
    table runs in a state monad [M] over [World], and the state survives
    a raised exception exactly as in Python.

    What lies outside the repository is a parameter ([Env]): the parser
    behind [json.loads], the successive readings of
    [datetime.utcnow().isoformat()], the successive results of
    [str(uuid.uuid4())], the text [str()] prints for floats and
    containers, and the page a table scan returns.  The DynamoDB table is
    modelled at the level of its item operations: [put_item] replaces the
    item stored under the key, [get_item] returns it, and [update_item]
    applies its SET actions to the stored item, or to a fresh item that
    holds only the key when none is stored (UpdateItem "edits an existing
    item's attributes, or adds a new item to the table if it does not
    already exist").  Every table call is recorded in [calls].  Service
    faults, the service's own checking of expression syntax and the
    serialisation of attribute values are outside the model. *)

From Stdlib Require Import ZArith String Ascii List.
From stdpp Require Import base gmap strings list fin_maps pretty.

Open Scope string_scope.
Open Scope Z_scope.

(* ===================================================================== *)
(** ** Python values *)
(* ===================================================================== *)

(** A float is either a finite dyadic number [m * 2^e], an infinity or a
    NaN.  Every IEEE double has this shape. *)
Inductive pyfloat : Type :=
| FFin (m e : Z)
| FInf (negative : bool)
| FNan.

#[warnings="-register-all"]
Inductive pyval : Type :=
| PNone
| PBool (b : bool)
| PInt (z : Z)
| PFloat (f : pyfloat)
| PStr (s : string)
| PList (l : list pyval)
| PDict (d : gmap string pyval).

Inductive exn : Type :=
| JSONDecodeError
| TypeError
| ValueError
| OverflowError
| AttributeError
| KeyError
| ClientError (code : string).

Inductive result (A : Type) : Type :=
| Ok (a : A)
| Raise (e : exn).
Arguments Ok {A} a.
Arguments Raise {A} e.

Definition rbind {A B : Type} (r : result A) (k : A → result B) : result B :=
  match r with
  | Ok a => k a
  | Raise e => Raise e
  end.

Declare Scope result_scope.
Delimit Scope result_scope with result.
Notation "x <~ r ;; k" := (rbind r (λ x, k))
  (at level 100, r at next level, right associativity) : result_scope.

(* --------------------------------------------------------------------- *)
(** *** Truthiness, [dict.get], [in], [len] *)
(* --------------------------------------------------------------------- *)

Definition float_truthy (f : pyfloat) : bool :=
  match f with
  | FFin m _ => negb (m =? 0)
  | FInf _ => true
  | FNan => true
  end.

Definition dict_nonempty (d : gmap string pyval) : bool :=
  match map_to_list d with
  | [] => false
  | _ :: _ => true
  end.

(** [bool(v)] *)
Definition py_truthy (v : pyval) : bool :=
  match v with
  | PNone => false
  | PBool b => b
  | PInt z => negb (z =? 0)
  | PFloat f => float_truthy f
  | PStr s => negb (String.eqb s EmptyString)
  | PList l => match l with [] => false | _ :: _ => true end
  | PDict d => dict_nonempty d
  end.

(** [a or b] *)
Definition py_or (a b : pyval) : pyval := if py_truthy a then a else b.

(** [d.get(k)] and [d.get(k, dflt)] on a dict *)
Definition dict_get (d : gmap string pyval) (k : string) : pyval :=
  default PNone (d !! k).

Definition dict_get_default (d : gmap string pyval) (k : string) (dflt : pyval) : pyval :=
  default dflt (d !! k).

(** [v.get(k, dflt)] on any value: only a dict has the method. *)
Definition py_get_default (v : pyval) (k : string) (dflt : pyval) : result pyval :=
  match v with
  | PDict d => Ok (dict_get_default d k dflt)
  | _ => Raise AttributeError
  end.

Definition py_get (v : pyval) (k : string) : result pyval :=
  py_get_default v k PNone.

(** [v[k]]: a dict without the key raises [KeyError]. *)
Definition py_getitem (v : pyval) (k : string) : result pyval :=
  match v with
  | PDict d => match d !! k with Some x => Ok x | None => Raise KeyError end
  | _ => Raise TypeError
  end.

(** [v.items()], [v.get] : the receiver must be a dict. *)
Definition as_dict (v : pyval) : result (gmap string pyval) :=
  match v with
  | PDict d => Ok d
  | _ => Raise AttributeError
  end.

Definition str_has_char (c : ascii) (s : string) : bool :=
  existsb (Ascii.eqb c) (list_ascii_of_string s).

Definition is_str (s : string) (v : pyval) : bool :=
  match v with
  | PStr t => String.eqb s t
  | _ => false
  end.

(** ['@' in v]: substring test on a string, element test on a list, key
    test on a dict, [TypeError] on anything that is not a container. *)
Definition py_contains_at (v : pyval) : result bool :=
  match v with
  | PStr s => Ok (str_has_char "@" s)
  | PList l => Ok (existsb (is_str "@") l)
  | PDict d => Ok (match d !! "@" with Some _ => true | None => false end)
  | _ => Raise TypeError
  end.

(** [len(v)] *)
Definition py_len (v : pyval) : result Z :=
  match v with
  | PStr s => Ok (Z.of_nat (String.length s))
  | PList l => Ok (Z.of_nat (length l))
  | PDict d => Ok (Z.of_nat (length (map_to_list d)))
  | _ => Raise TypeError
  end.

(* --------------------------------------------------------------------- *)
(** *** [int(v)] *)
(* --------------------------------------------------------------------- *)

Definition is_digit (c : ascii) : bool :=
  let n := nat_of_ascii c in ((48 <=? n) && (n <=? 57))%nat.

Definition digit_value (c : ascii) : Z := Z.of_nat (nat_of_ascii c - 48).

(** The ASCII characters [str.isspace] accepts. *)
Definition is_space (c : ascii) : bool :=
  let n := nat_of_ascii c in
  (((9 <=? n) && (n <=? 13)) || ((28 <=? n) && (n <=? 32)))%nat.

Fixpoint lstrip (s : list ascii) : list ascii :=
  match s with
  | c :: r => if is_space c then lstrip r else s
  | [] => []
  end.

Definition strip (s : list ascii) : list ascii := rev (lstrip (rev (lstrip s))).

(** Digits after the first one; a single underscore may separate two
    digits. *)
Fixpoint more_digits (acc : Z) (s : list ascii) : option Z :=
  match s with
  | [] => Some acc
  | c :: r =>
      if is_digit c then more_digits (acc * 10 + digit_value c) r
      else if Ascii.eqb c "_" then
        match r with
        | d :: r' =>
            if is_digit d then more_digits (acc * 10 + digit_value d) r' else None
        | [] => None
        end
      else None
  end.

Definition unsigned_literal (s : list ascii) : option Z :=
  match s with
  | c :: r => if is_digit c then more_digits (digit_value c) r else None
  | [] => None
  end.

(** [int(s)] for a string, base ten: surrounding white space, an optional
    sign, digits.  [None] is [ValueError].  The interpreter's bound on
    the number of digits it converts is not modelled. *)
Definition int_of_str (s : string) : option Z :=
  match strip (list_ascii_of_string s) with
  | "-"%char :: r => Z.opp <$> unsigned_literal r
  | "+"%char :: r => unsigned_literal r
  | r => unsigned_literal r
  end.

(** [int(f)] truncates a finite float towards zero. *)
Definition int_of_float (f : pyfloat) : result Z :=
  match f with
  | FFin m e => Ok (if 0 <=? e then m * 2 ^ e else Z.quot m (2 ^ (- e)))
  | FInf _ => Raise OverflowError
  | FNan => Raise ValueError
  end.

Definition py_int (v : pyval) : result Z :=
  match v with
  | PNone => Raise TypeError
  | PBool b => Ok (if b then 1 else 0)
  | PInt z => Ok z
  | PFloat f => int_of_float f
  | PStr s => match int_of_str s with Some z => Ok z | None => Raise ValueError end
  | PList _ => Raise TypeError
  | PDict _ => Raise TypeError
  end.

(* --------------------------------------------------------------------- *)
(** *** [str(v)], [str.replace], [str.isdigit], [str.join] *)
(* --------------------------------------------------------------------- *)

(** [s.replace(c, '')] for a one-character [c] *)
Definition remove_char (c : ascii) (s : string) : string :=
  string_of_list_ascii (filter (λ x, x ≠ c) (list_ascii_of_string s)).

(** [s.isdigit()]: non-empty and all digits *)
Definition isdigit (s : string) : bool :=
  match list_ascii_of_string s with
  | [] => false
  | l => forallb is_digit l
  end.

(** [sep.join(l)] *)
Definition join (sep : string) (l : list string) : string := String.concat sep l.

(* ===================================================================== *)
(** ** The environment of the handlers *)
(* ===================================================================== *)

Record Env : Type := mkEnv {
  (** [json.loads] on a string; [None] is [json.JSONDecodeError] *)
  json_parse : string → option pyval;
  (** the [k]-th reading of [datetime.utcnow().isoformat()] *)
  utcnow_isoformat : nat → string;
  (** the [k]-th result of [str(uuid.uuid4())] *)
  uuid4_str : nat → string;
  (** the text of [str(v)] for a float, a list or a dict *)
  py_repr : pyval → string;
  (** the response of [table.scan] on a table, with [Limit] and
      [ExclusiveStartKey] *)
  scan_page : gmap string (gmap string pyval) → Z → option pyval → gmap string pyval;
}.

(** [json.loads(v)]: a value that is not a string is a [TypeError]. *)
Definition json_loads (env : Env) (v : pyval) : result pyval :=
  match v with
  | PStr s => match json_parse env s with
              | Some x => Ok x
              | None => Raise JSONDecodeError
              end
  | _ => Raise TypeError
  end.

(** One call of the table resource. *)
Inductive table_call : Type :=
| PutItem (item : gmap string pyval)
| GetItem (key : pyval)
| UpdateItem (key : pyval) (sets : list (string * pyval))
| DeleteItem (key : pyval)
| Scan (limit : Z) (exclusive_start_key : option pyval).

Record World : Type := mkWorld {
  (** the table, keyed by [user_id] *)
  table : gmap string (gmap string pyval);
  (** the table calls made so far, oldest first *)
  calls : list table_call;
  (** how many times the clock was read *)
  ticks : nat;
  (** how many identifiers were drawn *)
  draws : nat;
}.

Definition M (A : Type) : Type := World → result A * World.

Definition ret {A : Type} (a : A) : M A := λ w, (Ok a, w).

Definition raise {A : Type} (e : exn) : M A := λ w, (Raise e, w).

Definition lift {A : Type} (r : result A) : M A := λ w, (r, w).

Definition bind {A B : Type} (m : M A) (k : A → M B) : M B :=
  λ w, match m w with
       | (Ok a, w') => k a w'
       | (Raise e, w') => (Raise e, w')
       end.

(** [try: m  except Exception as e: h e] *)
Definition try_except {A : Type} (m : M A) (h : exn → M A) : M A :=
  λ w, match m w with
       | (Ok a, w') => (Ok a, w')
       | (Raise e, w') => h e w'
       end.

Declare Scope py_scope.
Delimit Scope py_scope with py.
Notation "x <- m ;; k" := (bind m (λ x, k))
  (at level 100, m at next level, right associativity) : py_scope.
Notation "m ;;; k" := (bind m (λ _, k))
  (at level 100, right associativity) : py_scope.

Definition tick (w : World) : World :=
  mkWorld (table w) (calls w) (S (ticks w)) (draws w).

Definition draw (w : World) : World :=
  mkWorld (table w) (calls w) (ticks w) (S (draws w)).

Definition record_call (c : table_call) (w : World) : World :=
  mkWorld (table w) (calls w ++ [c]) (ticks w) (draws w).

Definition set_table (t : gmap string (gmap string pyval)) (w : World) : World :=
  mkWorld t (calls w) (ticks w) (draws w).

(* ===================================================================== *)
(** ** [src/utils/dynamodb.py] *)
(* ===================================================================== *)

Module Dynamodb.
Section WithEnv.
Context (env : Env).

Local Open Scope py_scope.

(** [datetime.utcnow().isoformat()] *)
Definition utcnow : M string :=
  λ w, (Ok (utcnow_isoformat env (ticks w)), tick w).

(** [str(uuid.uuid4())] *)
Definition uuid4 : M string :=
  λ w, (Ok (uuid4_str env (draws w)), draw w).

(** [str(v)] *)
Definition py_str (v : pyval) : string :=
  match v with
  | PNone => "None"
  | PBool true => "True"
  | PBool false => "False"
  | PInt z => pretty z
  | PStr s => s
  | PFloat _ | PList _ | PDict _ => py_repr env v
  end.

(* --------------------------------------------------------------------- *)
(** *** The table resource returned by [get_table()] *)
(* --------------------------------------------------------------------- *)

(** The SET actions of an update expression, applied in order. *)
Definition apply_sets (sets : list (string * pyval)) (item : gmap string pyval)
  : gmap string pyval :=
  foldl (λ it kv, <[kv.1 := kv.2]> it) item sets.

(** [table.put_item(Item=item)] *)
Definition put_item (item : gmap string pyval) : M unit :=
  λ w, let w1 := record_call (PutItem item) w in
       match item !! "user_id" with
       | Some (PStr k) => (Ok tt, set_table (<[k := item]> (table w1)) w1)
       | _ => (Raise (ClientError "ValidationException"), w1)
       end.

(** [table.get_item(Key={'user_id': key})] *)
Definition get_item (key : pyval) : M (gmap string pyval) :=
  λ w, let w1 := record_call (GetItem key) w in
       match key with
       | PStr k =>
           (Ok (match table w1 !! k with
                | Some item => {[ "Item" := PDict item ]}
                | None => ∅
                end), w1)
       | _ => (Raise (ClientError "ValidationException"), w1)
       end.

(** [table.update_item(Key={'user_id': key}, UpdateExpression=...,
    ExpressionAttributeValues=..., ReturnValues='ALL_NEW')]; [sets] is
    the list of the expression's [attr = :attr] actions with the values
    bound to the placeholders. *)
Definition update_item (key : pyval) (sets : list (string * pyval))
  : M (gmap string pyval) :=
  λ w, let w1 := record_call (UpdateItem key sets) w in
       match key with
       | PStr k =>
           let stored := default {[ "user_id" := PStr k ]} (table w1 !! k) in
           let item := apply_sets sets stored in
           (Ok {[ "Attributes" := PDict item ]}, set_table (<[k := item]> (table w1)) w1)
       | _ => (Raise (ClientError "ValidationException"), w1)
       end.


(** [table.scan] with the keyword arguments [Limit] and, when given,
    [ExclusiveStartKey] *)
Definition scan (limit : Z) (exclusive_start_key : option pyval)
  : M (gmap string pyval) :=
  λ w, (Ok (scan_page env (table w) limit exclusive_start_key),
        record_call (Scan limit exclusive_start_key) w).

(* --------------------------------------------------------------------- *)
(** *** The adapter *)
(* --------------------------------------------------------------------- *)

Definition add_optional (k : string) (user_data item : gmap string pyval)
  : gmap string pyval :=
  match user_data !! k with
  | Some v => <[k := v]> item
  | None => item
  end.

(** The [except Exception as e: ... raise e] clause of every adapter
    function logs and re-raises, so it is the identity here. *)
Definition create_user (user_data : pyval) : M pyval :=
  user_id <- uuid4 ;;
  d <- lift (as_dict user_data) ;;
  created_at <- utcnow ;;
  updated_at <- utcnow ;;
  let item : gmap string pyval :=
    {[ "user_id" := PStr user_id;
       "name" := dict_get d "name";
       "email" := dict_get d "email";
       "created_at" := PStr created_at;
       "updated_at" := PStr updated_at ]} in
  let item := add_optional "age" d item in
  let item := add_optional "phone" d item in
  let item := add_optional "address" d item in
  (put_item item ;;;
   ret (PDict item)).

Definition get_user (user_id : pyval) : M pyval :=
  response <- get_item user_id ;;
  match response !! "Item" with
  | Some item => ret item
  | None => ret PNone
  end.

Definition list_users (limit : Z) (last_evaluated_key : pyval) : M pyval :=
  let exclusive_start_key :=
    if py_truthy last_evaluated_key
    then Some (PDict {[ "user_id" := last_evaluated_key ]})
    else None in
  response <- scan limit exclusive_start_key ;;
  let users := dict_get_default response "Items" (PList []) in
  next_token <- lift (match response !! "LastEvaluatedKey" with
                      | Some _ =>
                          py_get (dict_get_default response "LastEvaluatedKey" (PDict ∅))
                                 "user_id"
                      | None => Ok PNone
                      end) ;;
  count <- lift (py_len users) ;;
  ret (PDict {[ "users" := users; "count" := PInt count; "next_token" := next_token ]}).

(** The keys [update_user] copies into the update expression. *)
Definition updatable : list string := ["name"; "email"; "age"; "phone"; "address"].

(** The SET actions built by the loop over [update_data.items()]. *)
Definition field_sets (d : gmap string pyval) : list (string * pyval) :=
  filter (λ kv : string * pyval, kv.1 ∈ updatable) (map_to_list d).

Definition update_user (user_id update_data : pyval) : M pyval :=
  try_except
    (now <- utcnow ;;
     d <- lift (as_dict update_data) ;;
     let sets := ("updated_at", PStr now) :: field_sets d in
     response <- update_item user_id sets ;;
     match response !! "Attributes" with
     | Some item => ret item
     | None => ret PNone
     end)
    (λ e, match e with
          | ClientError "ResourceNotFoundException" => ret PNone
          | _ => raise e
          end).


(* --------------------------------------------------------------------- *)
(** *** The validator *)
(* --------------------------------------------------------------------- *)

Definition name_required : string := "Name is required".
Definition email_required : string := "Email is required".
Definition email_invalid : string := "Email must be valid".
Definition age_out_of_range : string := "Age must be between 0 and 150".
Definition age_not_a_number : string := "Age must be a number".
Definition phone_invalid : string := "Phone number must be valid".

(** [errors.append(e)] *)
Definition append (errors : list string) (e : string) : list string :=
  (errors ++ [e])%list.

Definition check_name (d : gmap string pyval) (errors : list string) : list string :=
  if negb (py_truthy (dict_get d "name")) then append errors name_required else errors.

Definition check_email (d : gmap string pyval) (errors : list string)
  : result (list string) :=
  if negb (py_truthy (dict_get d "email")) then Ok (append errors email_required)
  else (has_at <~ py_contains_at (dict_get_default d "email" (PStr EmptyString)) ;;
        Ok (if negb has_at then append errors email_invalid else errors))%result.

(** [except (ValueError, TypeError)] catches these two and nothing else. *)
Definition check_age (d : gmap string pyval) (errors : list string)
  : result (list string) :=
  match d !! "age" with
  | Some v =>
      match py_int v with
      | Ok age =>
          Ok (if (age <? 0) || (age >? 150) then append errors age_out_of_range else errors)
      | Raise ValueError | Raise TypeError => Ok (append errors age_not_a_number)
      | Raise e => Raise e
      end
  | None => Ok errors
  end.

Definition stripped_phone (v : pyval) : string :=
  remove_char " " (remove_char "-" (py_str v)).

Definition check_phone (d : gmap string pyval) (errors : list string) : list string :=
  match d !! "phone" with
  | Some v =>
      if py_truthy v then
        let phone := stripped_phone v in
        if negb (isdigit phone) || (Z.of_nat (String.length phone) <? 10)
        then append errors phone_invalid else errors
      else errors
  | None => errors
  end.

(** The first statement calls [user_data.get], which only a dict has. *)
Definition validate_user_data (user_data : pyval) : result (list string) :=
  (d <~ as_dict user_data ;;
   let errors := check_name d [] in
   errors <~ check_email d errors ;;
   errors <~ check_age d errors ;;
   Ok (check_phone d errors))%result.

(* --------------------------------------------------------------------- *)
(** *** The response formatter *)
(* --------------------------------------------------------------------- *)

Definition cors_headers : gmap string pyval :=
  {[ "Content-Type" := PStr "application/json";
     "Access-Control-Allow-Origin" := PStr "*";
     "Access-Control-Allow-Headers" :=
       PStr "Content-Type,X-Amz-Date,Authorization,X-Api-Key,X-Amz-Security-Token";
     "Access-Control-Allow-Methods" := PStr "GET,POST,PUT,DELETE,OPTIONS" ]}.

Definition format_response (status_code : Z) (body : pyval) : gmap string pyval :=
  {[ "statusCode" := PInt status_code;
     "headers" := PDict cors_headers;
     "body" := body ]}.

Definition format_error_response (status_code : Z) (message : string)
  : M (gmap string pyval) :=
  timestamp <- utcnow ;;
  ret (format_response status_code
         (PDict {[ "error" := PStr message; "timestamp" := PStr timestamp ]})).

Definition format_success_response (data : pyval) : M (gmap string pyval) :=
  timestamp <- utcnow ;;
  ret (format_response 200
         (PDict {[ "data" := data; "timestamp" := PStr timestamp ]})).

End WithEnv.
End Dynamodb.

(* ===================================================================== *)
(** ** The handlers *)
(* ===================================================================== *)

(** Every handler starts with [logger.info(json.dumps(event))]; an event
    is a dict of JSON values, so the call returns and has no effect on
    the world. *)

Module CreateUser.
Section WithEnv.
Context (env : Env).
Local Open Scope py_scope.

Definition lambda_handler (event : gmap string pyval) : M (gmap string pyval) :=
  try_except
    (match event !! "body" with
     | Some body =>
         match json_loads env body with
         | Raise JSONDecodeError =>
             Dynamodb.format_error_response env 400 "Invalid JSON in request body"
         | Raise e => raise e
         | Ok user_data =>
             validation_errors <- lift (Dynamodb.validate_user_data env user_data) ;;
             match validation_errors with
             | _ :: _ =>
                 Dynamodb.format_error_response env 400
                   ("Validation errors: " ++ join ", " validation_errors)
             | [] =>
                 created_user <- Dynamodb.create_user env user_data ;;
                 Dynamodb.format_success_response env
                   (PDict {[ "message" := PStr "User created successfully";
                             "user" := created_user ]})
             end
         end
     | None => Dynamodb.format_error_response env 400 "Request body is required"
     end)
    (λ _, Dynamodb.format_error_response env 500 "Internal server error").

End WithEnv.
End CreateUser.

Module GetUser.
Section WithEnv.
Context (env : Env).
Local Open Scope py_scope.

Definition lambda_handler (event : gmap string pyval) : M (gmap string pyval) :=
  try_except
    (let path_parameters := dict_get_default event "pathParameters" (PDict ∅) in
     user_id <- lift (py_get path_parameters "user_id") ;;
     if negb (py_truthy user_id)
     then Dynamodb.format_error_response env 400 "User ID is required"
     else
       user <- Dynamodb.get_user user_id ;;
       if py_truthy user
       then Dynamodb.format_success_response env (PDict {[ "user" := user ]})
       else Dynamodb.format_error_response env 404 "User not found")
    (λ _, Dynamodb.format_error_response env 500 "Internal server error").

End WithEnv.
End GetUser.

Module ListUsers.
Section WithEnv.
Context (env : Env).
Local Open Scope py_scope.

(** [event.get('queryStringParameters', {}) or {}] *)
Definition query_parameters (event : gmap string pyval) : pyval :=
  py_or (dict_get_default event "queryStringParameters" (PDict ∅)) (PDict ∅).

(** [if limit > 1000: limit = 1000  elif limit < 1: limit = 1] *)
Definition validate_limit (limit : Z) : Z :=
  if limit >? 1000 then 1000
  else if limit <? 1 then 1
  else limit.

Definition lambda_handler (event : gmap string pyval) : M (gmap string pyval) :=
  try_except
    (let query_parameters := query_parameters event in
     requested <- lift (py_get_default query_parameters "limit" (PInt 100)) ;;
     limit <- lift (py_int requested) ;;
     last_evaluated_key <- lift (py_get query_parameters "last_evaluated_key") ;;
     let limit := validate_limit limit in
     result <- Dynamodb.list_users env limit last_evaluated_key ;;
     users <- lift (py_getitem result "users") ;;
     count <- lift (py_getitem result "count") ;;
     next_token <- lift (py_getitem result "next_token") ;;
     Dynamodb.format_success_response env
       (PDict {[ "users" := users; "count" := count; "next_token" := next_token ]}))
    (λ _, Dynamodb.format_error_response env 500 "Internal server error").

End WithEnv.
End ListUsers.

Module UpdateUser.
Section WithEnv.
Context (env : Env).
Local Open Scope py_scope.

Definition lambda_handler (event : gmap string pyval) : M (gmap string pyval) :=
  try_except
    (let path_parameters := dict_get_default event "pathParameters" (PDict ∅) in
     user_id <- lift (py_get path_parameters "user_id") ;;
     if negb (py_truthy user_id)
     then Dynamodb.format_error_response env 400 "User ID is required"
     else
       match event !! "body" with
       | Some body =>
           match json_loads env body with
           | Raise JSONDecodeError =>
               Dynamodb.format_error_response env 400 "Invalid JSON in request body"
           | Raise e => raise e
           | Ok update_data =>
               validation_errors <- lift (Dynamodb.validate_user_data env update_data) ;;
               match validation_errors with
               | _ :: _ =>
                   Dynamodb.format_error_response env 400
                     ("Validation errors: " ++ join ", " validation_errors)
               | [] =>
                   updated_user <- Dynamodb.update_user env user_id update_data ;;
                   if py_truthy updated_user
                   then Dynamodb.format_success_response env
                          (PDict {[ "message" := PStr "User updated successfully";
                                    "user" := updated_user ]})
                   else Dynamodb.format_error_response env 404 "User not found"
               end
           end
       | None => Dynamodb.format_error_response env 400 "Request body is required"
       end)
    (λ _, Dynamodb.format_error_response env 500 "Internal server error").

End WithEnv.
End UpdateUser.

(* ===================================================================== *)
(** ** A concrete environment and sample requests *)
(* ===================================================================== *)

(** [Sample.json_parse] reads the JSON texts made of [null], [true],
    [false], integers, strings without escapes, arrays and objects.  On
    these texts, and on a text that is not JSON at all, it does what
    [json.loads] does; it refuses JSON texts with escapes, fractions or
    exponents, which [json.loads] reads, and the sample requests use
    none. *)
Module Sample.

Definition dq : ascii := "034"%char.

Definition is_json_space (c : ascii) : bool :=
  Ascii.eqb c " " || Ascii.eqb c "009" || Ascii.eqb c "010" || Ascii.eqb c "013".

Fixpoint skip_ws (s : list ascii) : list ascii :=
  match s with
  | c :: r => if is_json_space c then skip_ws r else s
  | [] => []
  end.

Fixpoint strip_prefix (p s : list ascii) : option (list ascii) :=
  match p, s with
  | [], _ => Some s
  | a :: p', b :: s' => if Ascii.eqb a b then strip_prefix p' s' else None
  | _ :: _, [] => None
  end.

(** The characters of a string up to its closing quote. *)
Fixpoint string_body (acc : list ascii) (s : list ascii) : option (string * list ascii) :=
  match s with
  | [] => None
  | c :: r =>
      if Ascii.eqb c dq then Some (string_of_list_ascii (rev acc), r)
      else if Ascii.eqb c "\" then None
      else if (nat_of_ascii c <? 32)%nat then None
      else string_body (c :: acc) r
  end.

Fixpoint digits (acc : Z) (s : list ascii) : Z * list ascii :=
  match s with
  | c :: r => if is_digit c then digits (acc * 10 + digit_value c) r else (acc, s)
  | [] => (acc, [])
  end.

Definition starts_fraction (s : list ascii) : bool :=
  match s with
  | c :: _ => Ascii.eqb c "." || Ascii.eqb c "e" || Ascii.eqb c "E"
  | [] => false
  end.

Definition natural (s : list ascii) : option (Z * list ascii) :=
  match s with
  | c :: r =>
      if Ascii.eqb c "0" then (if starts_fraction r then None else Some (0, r))
      else if is_digit c then
        let '(n, r') := digits (digit_value c) r in
        if starts_fraction r' then None else Some (n, r')
      else None
  | [] => None
  end.

Definition number (s : list ascii) : option (pyval * list ascii) :=
  match s with
  | c :: r =>
      if Ascii.eqb c "-"
      then '(n, r') ← natural r; Some (PInt (- n), r')
      else '(n, r') ← natural s; Some (PInt n, r')
  | [] => None
  end.

Fixpoint value (fuel : nat) (s : list ascii) : option (pyval * list ascii) :=
  match fuel with
  | O => None
  | S fuel =>
      let s := skip_ws s in
      match strip_prefix (list_ascii_of_string "null") s with
      | Some r => Some (PNone, r)
      | None =>
      match strip_prefix (list_ascii_of_string "true") s with
      | Some r => Some (PBool true, r)
      | None =>
      match strip_prefix (list_ascii_of_string "false") s with
      | Some r => Some (PBool false, r)
      | None =>
      match s with
      | c :: r =>
          if Ascii.eqb c dq then '(str, r') ← string_body [] r; Some (PStr str, r')
          else if Ascii.eqb c "[" then
            match skip_ws r with
            | c' :: r' =>
                if Ascii.eqb c' "]" then Some (PList [], r') else elements fuel [] r
            | [] => None
            end
          else if Ascii.eqb c "{" then
            match skip_ws r with
            | c' :: r' =>
                if Ascii.eqb c' "}" then Some (PDict ∅, r') else members fuel ∅ r
            | [] => None
            end
          else number s
      | [] => None
      end end end end
  end
with elements (fuel : nat) (acc : list pyval) (s : list ascii)
  : option (pyval * list ascii) :=
  match fuel with
  | O => None
  | S fuel =>
      '(v, r) ← value fuel s;
      match skip_ws r with
      | c :: r' =>
          if Ascii.eqb c "," then elements fuel (acc ++ [v])%list r'
          else if Ascii.eqb c "]" then Some (PList (acc ++ [v])%list, r')
          else None
      | [] => None
      end
  end
with members (fuel : nat) (acc : gmap string pyval) (s : list ascii)
  : option (pyval * list ascii) :=
  match fuel with
  | O => None
  | S fuel =>
      match skip_ws s with
      | c :: r =>
          if Ascii.eqb c dq then
            '(k, r1) ← string_body [] r;
            match skip_ws r1 with
            | c1 :: r2 =>
                if Ascii.eqb c1 ":" then
                  '(v, r3) ← value fuel r2;
                  match skip_ws r3 with
                  | c3 :: r4 =>
                      if Ascii.eqb c3 "," then members fuel (<[k := v]> acc) r4
                      else if Ascii.eqb c3 "}" then Some (PDict (<[k := v]> acc), r4)
                      else None
                  | [] => None
                  end
                else None
            | [] => None
            end
          else None
      | [] => None
      end
  end.

Definition json_parse (s : string) : option pyval :=
  let l := list_ascii_of_string s in
  '(v, r) ← value (S (2 * length l)) l;
  match skip_ws r with
  | [] => Some v
  | _ :: _ => None
  end.

(** Six successive clock readings, then a later one for ever. *)
Definition clock (k : nat) : string :=
  nth k [ "2023-01-01T00:00:00.000001"; "2023-01-01T00:00:00.000002";
          "2023-01-01T00:00:00.000003"; "2023-01-01T00:00:07.250000";
          "2023-01-01T00:00:07.250031"; "2023-01-01T00:00:07.250032" ]
      "2023-01-02T00:00:00".

Definition uuid (k : nat) : string :=
  "0f8fad5b-d9cb-469f-a165-7086772895" ++ pretty (Z.of_nat (10 + k)).

Definition repr (v : pyval) : string :=
  match v with
  | PFloat _ => "<float>"
  | PList _ => "[...]"
  | _ => "{...}"
  end.

(** A scan that returns the first [limit] items and no continuation key. *)
Definition scan_page (t : gmap string (gmap string pyval)) (limit : Z)
    (start : option pyval) : gmap string pyval :=
  {[ "Items" := PList (take (Z.to_nat limit) (PDict <$> (map_to_list t).*2)) ]}.

Definition env : Env := mkEnv json_parse clock uuid repr scan_page.

(** Writes a JSON text with apostrophes in place of double quotes. *)
Definition json_text (s : string) : string :=
  string_of_list_ascii
    (map (λ c, if Ascii.eqb c "'" then dq else c) (list_ascii_of_string s)).

Definition empty_world : World := mkWorld ∅ [] 0 0.

Definition john : gmap string pyval :=
  {[ "name" := PStr "John Doe"; "email" := PStr "john@example.com"; "age" := PInt 30 ]}.

Definition john_body : pyval :=
  PStr (json_text "{'name': 'John Doe', 'email': 'john@example.com', 'age': 30}").

Definition path_of (user_id : string) : pyval :=
  PDict {[ "user_id" := PStr user_id ]}.


(** An Update request with a malformed body and no path parameter. *)
Definition malformed_without_id : gmap string pyval :=
  {[ "body" := PStr "invalid json" ]}.

Definition malformed_with_id : gmap string pyval :=
  {[ "pathParameters" := path_of "u-1"; "body" := PStr "invalid json" ]}.

Definition bodyless_with_id : gmap string pyval :=
  {[ "pathParameters" := path_of "u-1" ]}.

Definition limit_query (limit : string) : gmap string pyval :=
  {[ "queryStringParameters" := PDict {[ "limit" := PStr limit ]} ]}.

(** [150.5] as a float: [301 * 2^-1]. *)
Definition age_150_5 : pyval := PFloat (FFin 301 (-1)).

Definition john_aged_150_5 : gmap string pyval :=
  <[ "age" := age_150_5 ]> john.

Definition email_5 : gmap string pyval :=
  {[ "name" := PStr "John Doe"; "email" := PInt 5 ]}.

Definition email_5_body : pyval :=
  PStr (json_text "{'name': 'John Doe', 'email': 5}").

Definition email_5_with_id : gmap string pyval :=
  {[ "pathParameters" := path_of "u-1"; "body" := email_5_body ]}.

Definition john_with_phone : gmap string pyval :=
  <[ "phone" := PStr "123-456-7890" ]> john.

(** The world after John was created in the empty world. *)
Definition john_created : World :=
  (Dynamodb.create_user env (PDict john) empty_world).2.

Definition john_id : string := "0f8fad5b-d9cb-469f-a165-708677289510".

(** The record [create_user] stores for John in the empty world. *)
Definition john_item : gmap string pyval :=
  {[ "user_id" := PStr john_id;
     "name" := PStr "John Doe";
     "email" := PStr "john@example.com";
     "age" := PInt 30;
     "created_at" := PStr "2023-01-01T00:00:00.000001";
     "updated_at" := PStr "2023-01-01T00:00:00.000002" ]}.


Definition john_aged_200 : gmap string pyval :=
  <[ "age" := PInt 200 ]> john.


Definition email_5_aged_200 : gmap string pyval :=
  <[ "age" := PInt 200 ]> email_5.

(** A request whose body is [null], as the gateway sends it when the
    client sent no body. *)
Definition null_body : gmap string pyval :=
  {[ "body" := PNone ]}.

Definition age_only : gmap string pyval := {[ "age" := PInt 30 ]}.

Definition age_only_body : pyval := PStr (json_text "{'age': 30}").

(** A request with the path parameter "u-1" and only an age in its body. *)
Definition age_only_with_id : gmap string pyval :=
  {[ "pathParameters" := path_of "u-1"; "body" := age_only_body ]}.

(** A request whose body is JSON but not an object. *)
Definition array_with_id : gmap string pyval :=
  {[ "pathParameters" := path_of "u-1"; "body" := PStr "[1, 2]" ]}.

Definition john_request : gmap string pyval := {[ "body" := john_body ]}.

Definition john_update_request : gmap string pyval :=
  {[ "pathParameters" := path_of john_id; "body" := john_body ]}.

Definition get_john : gmap string pyval := {[ "pathParameters" := path_of john_id ]}.

Definition get_ghost : gmap string pyval := {[ "pathParameters" := path_of "ghost" ]}.

(** A request whose path parameters are [null], as the gateway sends
    them when the route has none. *)
Definition null_path : gmap string pyval :=
  {[ "pathParameters" := PNone; "body" := john_body ]}.

Definition page_query : gmap string pyval :=
  {[ "queryStringParameters" :=
       PDict {[ "limit" := PStr "10"; "last_evaluated_key" := PStr "u-1" ]} ]}.

(** John updated with an age and a nickname. *)
Definition john_updated : gmap string pyval :=
  {[ "user_id" := PStr john_id;
     "name" := PStr "John Doe";
     "email" := PStr "john@example.com";
     "age" := PInt 31;
     "created_at" := PStr "2023-01-01T00:00:00.000001";
     "updated_at" := PStr "2023-01-01T00:00:00.000003" ]}.

(** John with an email that holds no "@". *)
Definition john_without_at : gmap string pyval :=
  {[ "name" := PStr "John Doe"; "email" := PStr "john.example.com" ]}.

(** John with a phone number of six digits. *)
Definition john_short_phone : gmap string pyval :=
  <[ "phone" := PStr "123-456" ]> john.

(** The world after the Create handler answered John's request in the
    empty world. *)
Definition john_posted : World :=
  (CreateUser.lambda_handler env john_request empty_world).2.

End Sample.

(* ===================================================================== *)
(** ** Vocabulary of the statements *)
(* ===================================================================== *)

(** The envelope [format_error_response] builds when the clock reads
    [timestamp]. *)
Definition error_envelope (status_code : Z) (message timestamp : string)
  : gmap string pyval :=
  Dynamodb.format_response status_code
    (PDict {[ "error" := PStr message; "timestamp" := PStr timestamp ]}).

(** The envelope [format_success_response] builds. *)
Definition success_envelope (data : pyval) (timestamp : string) : gmap string pyval :=
  Dynamodb.format_response 200
    (PDict {[ "data" := data; "timestamp" := PStr timestamp ]}).

(** A handler run that only formats an error: one clock reading, no
    table call, the table untouched. *)
Definition replies_error (env : Env) (status_code : Z) (message : string)
    (run : M (gmap string pyval)) (w : World) : Prop :=
  run w = (Ok (error_envelope status_code message (utcnow_isoformat env (ticks w))), tick w).

(** The error message carried by an envelope, if its body is an error
    object. *)
Definition error_message (envelope : gmap string pyval) : option pyval :=
  match envelope !! "body" with
  | Some (PDict body) => body !! "error"
  | _ => None
  end.

Definition status_code (envelope : gmap string pyval) : option pyval :=
  envelope !! "statusCode".

(** The envelope a run produces, when it returns one. *)
Definition reply (run : M (gmap string pyval)) (w : World) : gmap string pyval :=
  match (run w).1 with
  | Ok envelope => envelope
  | Raise _ => ∅
  end.

(** The item [create_user] builds from a dict when the clock has been
    read [t] times and [n] identifiers were drawn. *)
Definition created_item (env : Env) (d : gmap string pyval) (t n : nat) : gmap string pyval :=
  Dynamodb.add_optional "address" d
    (Dynamodb.add_optional "phone" d
       (Dynamodb.add_optional "age" d
          {[ "user_id" := PStr (uuid4_str env n);
             "name" := dict_get d "name";
             "email" := dict_get d "email";
             "created_at" := PStr (utcnow_isoformat env t);
             "updated_at" := PStr (utcnow_isoformat env (S t)) ]})).

(** The limit clamped into [1, 1000], as the specification words it. *)
Definition clamp_limit (n : Z) : Z := Z.max 1 (Z.min 1000 n).

Definition is_age_error (e : string) : Prop :=
  e = Dynamodb.age_out_of_range ∨ e = Dynamodb.age_not_a_number.

(** The email check of the validator returns: the email is missing or
    falsy, or a container the ["@"] test accepts. *)
Definition email_checkable (d : gmap string pyval) : Prop :=
  py_truthy (dict_get d "email") = false ∨
  ∃ b, py_contains_at (dict_get d "email") = Ok b.

(** The event carries a usable [user_id] path parameter. *)
Definition has_user_id (event : gmap string pyval) (user_id : pyval) : Prop :=
  py_get (dict_get_default event "pathParameters" (PDict ∅)) "user_id" = Ok user_id ∧
  py_truthy user_id = true.

(** The clock never runs backwards; ISO-8601 texts compare as strings. *)
Definition clock_monotone (env : Env) : Prop :=
  ∀ i j : nat, (i ≤ j)%nat →
    String.leb (utcnow_isoformat env i) (utcnow_isoformat env j) = true.

(** Every stored record carries an [updated_at] that was read from the
    clock before now. *)
Definition stamped (env : Env) (w : World) : Prop :=
  ∀ k item, table w !! k = Some item →
    ∃ i : nat, (i < ticks w)%nat ∧
      item !! "updated_at" = Some (PStr (utcnow_isoformat env i)).

(** [w'] comes after [w]: the clock was only read further, and every
    record of [w'] is a record of [w] or was stamped in between. *)
Definition extends (env : Env) (w w' : World) : Prop :=
  (ticks w ≤ ticks w')%nat ∧
  ∀ k item, table w' !! k = Some item →
    table w !! k = Some item ∨
    ∃ i : nat, (ticks w ≤ i < ticks w')%nat ∧
      item !! "updated_at" = Some (PStr (utcnow_isoformat env i)).

(** A computation every run of which leads to a later world. *)
Definition steady {A : Type} (env : Env) (m : M A) : Prop :=
  ∀ w, extends env w (m w).2.

(** The requests the gateway routes to the four handlers. *)
Inductive request : Type :=
| Create (event : gmap string pyval)
| Get (event : gmap string pyval)
| List (event : gmap string pyval)
| Update (event : gmap string pyval).

Definition handle (env : Env) (r : request) : M (gmap string pyval) :=
  match r with
  | Create event => CreateUser.lambda_handler env event
  | Get event => GetUser.lambda_handler env event
  | List event => ListUsers.lambda_handler env event
  | Update event => UpdateUser.lambda_handler env event
  end.

(** The worlds the handlers can produce from an empty table. *)
Inductive reachable (env : Env) : World → Prop :=
| reachable_empty w : table w = ∅ → reachable env w
| reachable_handle w r : reachable env w → reachable env (handle env r w).2.

(** The status codes a route can answer. *)
Definition allowed (r : request) : list Z :=
  match r with
  | Create _ => [200; 400; 500]
  | Get _ => [200; 400; 404; 500]
  | List _ => [200; 500]
  | Update _ => [200; 400; 404; 500]
  end.

(** The table call of a route. *)
Definition call_of (r : request) (c : table_call) : Prop :=
  match r, c with
  | Create _, PutItem _ => True
  | Get _, GetItem _ => True
  | List _, Scan limit _ => 1 ≤ limit ≤ 1000
  | Update _, UpdateItem _ _ => True
  | _, _ => False
  end.

(** What a route may have done to the table between [w] and [w']:
    nothing, or the one write of Create or of Update, made with a record
    that passed the validator. *)
Definition written (env : Env) (r : request) (w w' : World) : Prop :=
  table w' = table w ∨
  match r with
  | Create _ =>
      ∃ d, Dynamodb.validate_user_data env (PDict d) = Ok [] ∧
           (ticks w + 2 ≤ ticks w')%nat ∧
           table w' = <[uuid4_str env (draws w) := created_item env d (ticks w) (draws w)]>
                        (table w)
  | Update _ =>
      ∃ k d, Dynamodb.validate_user_data env (PDict d) = Ok [] ∧
             table w' =
               <[k := Dynamodb.apply_sets
                        (("updated_at", PStr (utcnow_isoformat env (ticks w)))
                         :: Dynamodb.field_sets d)
                        (default {[ "user_id" := PStr k ]} (table w !! k))]> (table w)
  | Get _ | List _ => False
  end.

(** One run of a route, from [w] to the outcome [out]. *)
Definition step (env : Env) (r : request) (w : World)
    (out : result (gmap string pyval) * World) : Prop :=
  ∃ code body,
    out.1 = Ok (Dynamodb.format_response code body) ∧
    code ∈ allowed r ∧
    (ticks w < ticks out.2)%nat ∧
    (calls out.2 = calls w ∨
     ∃ c, calls out.2 = (calls w ++ [c])%list ∧ call_of r c) ∧
    written env r w out.2.

(** The age and phone conditions of the validator. *)
Definition age_ok (d : gmap string pyval) : Prop :=
  ∀ a, d !! "age" = Some a → ∃ n, py_int a = Ok n ∧ 0 ≤ n ≤ 150.

Definition phone_ok (env : Env) (d : gmap string pyval) : Prop :=
  ∀ p, d !! "phone" = Some p → py_truthy p = true →
       isdigit (Dynamodb.stripped_phone env p) = true ∧
       10 ≤ Z.of_nat (String.length (Dynamodb.stripped_phone env p)).

(** What the handlers keep true of every stored record: its [user_id]
    is its key, its [updated_at] is an earlier clock reading, its
    [created_at], if it has one, is a reading not later than that, and
    it passes the validator. *)
Definition kept (env : Env) (w : World) : Prop :=
  ∀ k item, table w !! k = Some item →
    item !! "user_id" = Some (PStr k) ∧
    (∃ j : nat, (j < ticks w)%nat ∧
       item !! "updated_at" = Some (PStr (utcnow_isoformat env j)) ∧
       (item !! "created_at" = None ∨
        ∃ i : nat, (i ≤ j)%nat ∧
          item !! "created_at" = Some (PStr (utcnow_isoformat env i)))) ∧
    Dynamodb.validate_user_data env (PDict item) = Ok [].

(* ===================================================================== *)
(** ** The validator *)
(* ===================================================================== *)

Section Validator.
Context (env : Env).

Lemma has_char_nonempty c s : str_has_char c s = true → s ≠ EmptyString.
Proof. intros H ->. discriminate H. Qed.

Lemma nonempty_truthy s : s ≠ EmptyString → py_truthy (PStr s) = true.
Proof.
  intros H. simpl. apply negb_true_iff. by apply String.eqb_neq.
Qed.

(** What each check does on a record that passes it. *)
Lemma check_name_pass d errors :
  py_truthy (dict_get d "name") = true → Dynamodb.check_name d errors = errors.
Proof. unfold Dynamodb.check_name. by intros ->. Qed.

Lemma check_email_pass d errors :
  py_truthy (dict_get d "email") = true →
  py_contains_at (dict_get d "email") = Ok true →
  Dynamodb.check_email d errors = Ok errors.
Proof.
  unfold Dynamodb.check_email. intros Ht Hc. rewrite Ht. simpl.
  assert (dict_get_default d "email" (PStr EmptyString) = dict_get d "email") as ->.
  { unfold dict_get_default, dict_get in *. destruct (d !! "email"); [done|discriminate Ht]. }
  by rewrite Hc.
Qed.

Lemma check_age_pass d errors :
  (∀ a, d !! "age" = Some a → ∃ n, py_int a = Ok n ∧ 0 ≤ n ≤ 150) →
  Dynamodb.check_age d errors = Ok errors.
Proof.
  unfold Dynamodb.check_age. intros H. destruct (d !! "age") as [a|]; [|done].
  destruct (H a eq_refl) as (n & -> & Hn).
  assert ((n <? 0) || (n >? 150) = false) as ->; [|done].
  apply orb_false_iff. split; [apply Z.ltb_ge | rewrite Z.gtb_ltb; apply Z.ltb_ge]; lia.
Qed.

Lemma check_phone_pass d errors :
  (∀ p, d !! "phone" = Some p → py_truthy p = true →
        isdigit (Dynamodb.stripped_phone env p) = true ∧
        10 ≤ Z.of_nat (String.length (Dynamodb.stripped_phone env p))) →
  Dynamodb.check_phone env d errors = errors.
Proof.
  unfold Dynamodb.check_phone. intros H. destruct (d !! "phone") as [p|]; [|done].
  destruct (py_truthy p) eqn:Hp; [|done].
  destruct (H p eq_refl Hp) as [-> Hlen]. simpl.
  by apply Z.ltb_ge in Hlen as ->.
Qed.

(** The checks before the age check return on a checkable email. *)
Lemma check_email_returns d errors :
  email_checkable d → ∃ errors', Dynamodb.check_email d errors = Ok errors'.
Proof.
  unfold Dynamodb.check_email. intros [Hf | [b Hb]].
  - rewrite Hf. eauto.
  - destruct (py_truthy (dict_get d "email")) eqn:Ht; simpl; [|eauto].
    assert (dict_get_default d "email" (PStr EmptyString) = dict_get d "email") as ->.
    { unfold dict_get_default, dict_get in *.
      destruct (d !! "email"); [done|discriminate Ht]. }
    rewrite Hb. simpl. eauto.
Qed.

Lemma check_phone_keeps d errors e :
  e ∈ errors → e ∈ Dynamodb.check_phone env d errors.
Proof.
  unfold Dynamodb.check_phone, Dynamodb.append. intros He.
  destruct (d !! "phone") as [p|]; [|done].
  destruct (py_truthy p); [|done].
  destruct (_ || _); [|done]. apply elem_of_app. by left.
Qed.

(** C6: a record with a non-empty name, an email containing "@", an age
    (if present) that [int] turns into an integer of [0, 150] and a phone
    (if present and truthy) that strips to at least ten digits passes the
    validator: [validate_user_data] returns the empty list. *)
Theorem validate_accepts_valid_record (d : gmap string pyval) (name email : string) :
  d !! "name" = Some (PStr name) → name ≠ EmptyString →
  d !! "email" = Some (PStr email) → str_has_char "@" email = true →
  (∀ a, d !! "age" = Some a → ∃ n, py_int a = Ok n ∧ 0 ≤ n ≤ 150) →
  (∀ p, d !! "phone" = Some p → py_truthy p = true →
        isdigit (Dynamodb.stripped_phone env p) = true ∧
        10 ≤ Z.of_nat (String.length (Dynamodb.stripped_phone env p))) →
  Dynamodb.validate_user_data env (PDict d) = Ok [].
Proof.
  intros Hname Hne Hemail Hat Hage Hphone.
  unfold Dynamodb.validate_user_data. simpl.
  rewrite check_name_pass; last first.
  { unfold dict_get. rewrite Hname. by apply nonempty_truthy. }
  rewrite (check_email_pass d []); simpl.
  - rewrite check_age_pass by done. simpl. by rewrite check_phone_pass.
  - unfold dict_get. rewrite Hemail. apply nonempty_truthy.
    by eapply has_char_nonempty.
  - unfold dict_get. rewrite Hemail. simpl. by rewrite Hat.
Qed.

(** C7, as amended: on a record whose email check returns, an age that
    [int] rejects with [ValueError] or [TypeError], or turns into an
    integer outside [0, 150], puts an age error in the returned list. *)
Theorem validate_reports_bad_age (d : gmap string pyval) (a : pyval) :
  email_checkable d →
  d !! "age" = Some a →
  (py_int a = Raise ValueError ∨ py_int a = Raise TypeError ∨
   ∃ n, py_int a = Ok n ∧ (n < 0 ∨ 150 < n)) →
  ∃ errors, Dynamodb.validate_user_data env (PDict d) = Ok errors ∧
            ∃ e, e ∈ errors ∧ is_age_error e.
Proof.
  intros Hemail Hage Hbad.
  unfold Dynamodb.validate_user_data. simpl.
  destruct (check_email_returns d (Dynamodb.check_name d []) Hemail) as [errs ->].
  simpl. unfold Dynamodb.check_age. rewrite Hage.
  destruct Hbad as [-> | [-> | (n & -> & Hn)]]; simpl.
  - eexists; split; [done|]. exists Dynamodb.age_not_a_number. split.
    + apply check_phone_keeps, elem_of_app. right. apply list_elem_of_singleton. done.
    + by right.
  - eexists; split; [done|]. exists Dynamodb.age_not_a_number. split.
    + apply check_phone_keeps, elem_of_app. right. apply list_elem_of_singleton. done.
    + by right.
  - assert ((n <? 0) || (n >? 150) = true) as ->.
    { apply orb_true_iff. rewrite Z.gtb_ltb. destruct Hn; [left|right]; by apply Z.ltb_lt. }
    eexists; split; [done|]. exists Dynamodb.age_out_of_range. split.
    + apply check_phone_keeps, elem_of_app. right. apply list_elem_of_singleton. done.
    + by left.
Qed.

(** A truthy email on which the ["@"] test raises [TypeError] makes the
    validator raise it: the name check cannot raise and the email check
    comes before the other two. *)
Lemma validate_raises_on_email (d : gmap string pyval) (email : pyval) :
  d !! "email" = Some email →
  py_truthy email = true →
  py_contains_at email = Raise TypeError →
  Dynamodb.validate_user_data env (PDict d) = Raise TypeError.
Proof.
  intros Hemail Ht Hc. unfold Dynamodb.validate_user_data. simpl.
  unfold Dynamodb.check_email, dict_get, dict_get_default.
  rewrite Hemail. simpl. rewrite Ht. simpl. by rewrite Hc.
Qed.

(** An infinite age makes [int] raise [OverflowError], which the
    [except] clause of the age check does not catch. *)
Lemma validate_raises_on_infinite_age (d : gmap string pyval) (negative : bool) :
  email_checkable d →
  d !! "age" = Some (PFloat (FInf negative)) →
  Dynamodb.validate_user_data env (PDict d) = Raise OverflowError.
Proof.
  intros Hemail Hage. unfold Dynamodb.validate_user_data. simpl.
  destruct (check_email_returns d (Dynamodb.check_name d []) Hemail) as [errs ->].
  simpl. unfold Dynamodb.check_age. by rewrite Hage.
Qed.

End Validator.

(* ===================================================================== *)
(** ** The response formatter and the handlers' error paths *)
(* ===================================================================== *)

Ltac run_py :=
  repeat (unfold try_except, bind, lift, ret, raise,
            Dynamodb.format_error_response, Dynamodb.format_success_response,
            Dynamodb.utcnow; simpl).

Section Handlers.
Context (env : Env).

Lemma format_error_response_run status message w :
  Dynamodb.format_error_response env status message w =
  (Ok (error_envelope status message (utcnow_isoformat env (ticks w))), tick w).
Proof. reflexivity. Qed.

Lemma format_success_response_run data w :
  Dynamodb.format_success_response env data w =
  (Ok (success_envelope data (utcnow_isoformat env (ticks w))), tick w).
Proof. reflexivity. Qed.

(** Formatting reads the clock and nothing else. *)
Lemma tick_leaves_table w : table (tick w) = table w ∧ calls (tick w) = calls w.
Proof. done. Qed.

Lemma format_response_body status body :
  Dynamodb.format_response status body !! "body" = Some body.
Proof.
  unfold Dynamodb.format_response.
  rewrite lookup_insert_ne by done. rewrite lookup_insert_ne by done.
  apply lookup_singleton_eq.
Qed.

Lemma format_response_status status body :
  Dynamodb.format_response status body !! "statusCode" = Some (PInt status).
Proof. unfold Dynamodb.format_response. apply lookup_insert_eq. Qed.

(** C2: what the formatter puts under ["body"] is the payload object
    itself, a dict holding [error]/[data] and [timestamp]; it is never a
    string, for any status code and payload. *)
Theorem envelope_body_is_structured (status : Z) (message : string) (data body : pyval)
    (w : World) :
  Dynamodb.format_response status body !! "body" = Some body ∧
  reply (Dynamodb.format_error_response env status message) w !! "body" =
    Some (PDict {[ "error" := PStr message;
                   "timestamp" := PStr (utcnow_isoformat env (ticks w)) ]}) ∧
  reply (Dynamodb.format_success_response env data) w !! "body" =
    Some (PDict {[ "data" := data;
                   "timestamp" := PStr (utcnow_isoformat env (ticks w)) ]}) ∧
  (∀ s, reply (Dynamodb.format_error_response env status message) w !! "body"
        ≠ Some (PStr s)) ∧
  (∀ s, reply (Dynamodb.format_success_response env data) w !! "body"
        ≠ Some (PStr s)).
Proof.
  unfold reply. rewrite format_error_response_run, format_success_response_run. simpl.
  unfold error_envelope, success_envelope. rewrite !format_response_body.
  repeat split; intros s; discriminate.
Qed.

(** Where the body is missing or malformed the Create handler stops
    before the validator. *)
Lemma create_rejects_bad_json event body w :
  event !! "body" = Some body →
  json_loads env body = Raise JSONDecodeError →
  replies_error env 400 "Invalid JSON in request body"
    (CreateUser.lambda_handler env event) w.
Proof.
  intros Hb Hj. unfold replies_error, CreateUser.lambda_handler, try_except.
  by rewrite Hb, Hj.
Qed.

Lemma create_rejects_no_body event w :
  event !! "body" = None →
  replies_error env 400 "Request body is required"
    (CreateUser.lambda_handler env event) w.
Proof.
  intros Hb. unfold replies_error, CreateUser.lambda_handler, try_except.
  by rewrite Hb.
Qed.

Lemma update_rejects_bad_json event user_id body w :
  has_user_id event user_id →
  event !! "body" = Some body →
  json_loads env body = Raise JSONDecodeError →
  replies_error env 400 "Invalid JSON in request body"
    (UpdateUser.lambda_handler env event) w.
Proof.
  intros [Hid Ht] Hb Hj. unfold replies_error, UpdateUser.lambda_handler.
  run_py. rewrite Hid. simpl. rewrite Ht. simpl. by rewrite Hb, Hj.
Qed.

Lemma update_rejects_no_body event user_id w :
  has_user_id event user_id →
  event !! "body" = None →
  replies_error env 400 "Request body is required"
    (UpdateUser.lambda_handler env event) w.
Proof.
  intros [Hid Ht] Hb. unfold replies_error, UpdateUser.lambda_handler.
  run_py. rewrite Hid. simpl. rewrite Ht. simpl. by rewrite Hb.
Qed.

(** A body that is present but is not a string, such as [None], makes
    [json.loads] raise [TypeError], which only the catch-all handles. *)
Lemma create_non_string_body_is_500 event body w :
  event !! "body" = Some body →
  (∀ s, body ≠ PStr s) →
  replies_error env 500 "Internal server error"
    (CreateUser.lambda_handler env event) w.
Proof.
  intros Hb Hs. unfold replies_error, CreateUser.lambda_handler. run_py.
  rewrite Hb. destruct body; try done. by destruct (Hs s).
Qed.

(** C8, as amended: a Create request, or an Update request that carries
    a user_id path parameter, is answered 400 "Invalid JSON in request
    body" when [json.loads] rejects its body with [JSONDecodeError], and
    400 "Request body is required" when it has no body; the run reads the
    clock once and leaves the table and the list of table calls as they
    were. *)
Theorem bad_body_is_400 (event : gmap string pyval) (w : World) (message : string) :
  ((∃ body, event !! "body" = Some body ∧
            json_loads env body = Raise JSONDecodeError) ∧
   message = "Invalid JSON in request body") ∨
  (event !! "body" = None ∧ message = "Request body is required") →
  replies_error env 400 message (CreateUser.lambda_handler env event) w ∧
  table (CreateUser.lambda_handler env event w).2 = table w ∧
  calls (CreateUser.lambda_handler env event w).2 = calls w ∧
  ∀ user_id, has_user_id event user_id →
    replies_error env 400 message (UpdateUser.lambda_handler env event) w ∧
    table (UpdateUser.lambda_handler env event w).2 = table w ∧
    calls (UpdateUser.lambda_handler env event w).2 = calls w.
Proof.
  intros [[(body & Hb & Hj) ->] | [Hb ->]].
  - pose proof (create_rejects_bad_json event body w Hb Hj) as Hc.
    split; [done|]. split; [by rewrite Hc|]. split; [by rewrite Hc|].
    intros user_id Hid.
    pose proof (update_rejects_bad_json event user_id body w Hid Hb Hj) as Hu.
    split; [done|]. by rewrite Hu.
  - pose proof (create_rejects_no_body event w Hb) as Hc.
    split; [done|]. split; [by rewrite Hc|]. split; [by rewrite Hc|].
    intros user_id Hid.
    pose proof (update_rejects_no_body event user_id w Hid Hb) as Hu.
    split; [done|]. by rewrite Hu.
Qed.

(** C10: a record whose email is truthy and not a container makes
    [validate_user_data] raise [TypeError] instead of returning a list,
    and a Create request, or an Update request with a user_id, whose body
    parses to such a record is answered 500 "Internal server error". *)
Theorem non_container_email_is_500 (event : gmap string pyval) (w : World)
    (body email : pyval) (d : gmap string pyval) :
  event !! "body" = Some body →
  json_loads env body = Ok (PDict d) →
  d !! "email" = Some email →
  py_truthy email = true →
  py_contains_at email = Raise TypeError →
  Dynamodb.validate_user_data env (PDict d) = Raise TypeError ∧
  replies_error env 500 "Internal server error" (CreateUser.lambda_handler env event) w ∧
  ∀ user_id, has_user_id event user_id →
    replies_error env 500 "Internal server error" (UpdateUser.lambda_handler env event) w.
Proof.
  intros Hb Hj He Ht Hc.
  pose proof (validate_raises_on_email env d email He Ht Hc) as Hv.
  split; [done|]. split.
  - unfold replies_error, CreateUser.lambda_handler. run_py.
    by rewrite Hb, Hj, Hv.
  - intros user_id [Hid Hu]. unfold replies_error, UpdateUser.lambda_handler.
    run_py. rewrite Hid. simpl. rewrite Hu. simpl. by rewrite Hb, Hj, Hv.
Qed.

End Handlers.

(* ===================================================================== *)
(** ** The List handler *)
(* ===================================================================== *)

Section ListHandler.
Context (env : Env).

(** The handler's two-branch test computes the clamp of the
    specification. *)
Lemma validate_limit_clamps n : ListUsers.validate_limit n = clamp_limit n.
Proof.
  unfold ListUsers.validate_limit, clamp_limit.
  destruct (n >? 1000) eqn:Hhi.
  - rewrite Z.gtb_ltb in Hhi. apply Z.ltb_lt in Hhi. lia.
  - rewrite Z.gtb_ltb in Hhi. apply Z.ltb_ge in Hhi.
    destruct (n <? 1) eqn:Hlo.
    + apply Z.ltb_lt in Hlo. lia.
    + apply Z.ltb_ge in Hlo. lia.
Qed.

(** [list_users] calls the table once, with the limit it was given, and
    the call is recorded whatever happens afterwards. *)
Lemma list_users_scans_once limit last_evaluated_key w :
  ∃ start, calls (Dynamodb.list_users env limit last_evaluated_key w).2 =
           (calls w ++ [Scan limit start])%list.
Proof.
  exists (if py_truthy last_evaluated_key
          then Some (PDict {[ "user_id" := last_evaluated_key ]}) else None).
  unfold Dynamodb.list_users, Dynamodb.scan. run_py.
  destruct (_ !! "LastEvaluatedKey"); simpl.
  - destruct (py_get _ _); simpl; [|done]. by destruct (py_len _).
  - by destruct (py_len _).
Qed.

Lemma list_handler_scans_once event qp n w :
  ListUsers.query_parameters event = PDict qp →
  py_int (dict_get_default qp "limit" (PInt 100)) = Ok n →
  ∃ start, calls (ListUsers.lambda_handler env event w).2 =
           (calls w ++ [Scan (ListUsers.validate_limit n) start])%list.
Proof.
  intros Hq Hn. unfold ListUsers.lambda_handler. run_py.
  rewrite Hq. simpl. rewrite Hn. simpl.
  destruct (list_users_scans_once (ListUsers.validate_limit n)
              (dict_get_default qp "last_evaluated_key" PNone) w) as [start Hs].
  exists start.
  destruct (Dynamodb.list_users env _ _ w) as [[result|e] w1]; simpl in *; [|done].
  repeat (destruct (py_getitem result _); simpl; [|done]). done.
Qed.

(** C5: the limit the List handler passes to the scan is the requested
    limit clamped into [1, 1000], that is 1000 above 1000 and 1 below 1,
    and 100 when the query has no limit; "5000" gives 1000 and "0"
    gives 1. *)
Theorem list_limit_is_clamped (event qp : gmap string pyval) (n : Z) (w : World) :
  ListUsers.query_parameters event = PDict qp →
  py_int (dict_get_default qp "limit" (PInt 100)) = Ok n →
  (∃ start, calls (ListUsers.lambda_handler env event w).2 =
            (calls w ++ [Scan (clamp_limit n) start])%list) ∧
  1 ≤ clamp_limit n ≤ 1000 ∧
  (1000 < n → clamp_limit n = 1000) ∧
  (n < 1 → clamp_limit n = 1) ∧
  (1 ≤ n ≤ 1000 → clamp_limit n = n) ∧
  (qp !! "limit" = None → clamp_limit n = 100) ∧
  (qp !! "limit" = Some (PStr "5000") → clamp_limit n = 1000) ∧
  (qp !! "limit" = Some (PStr "0") → clamp_limit n = 1).
Proof.
  intros Hq Hn. split.
  { rewrite <- validate_limit_clamps. by apply (list_handler_scans_once event qp). }
  unfold clamp_limit. repeat split; try lia.
  - intros Hl. unfold dict_get_default in Hn. rewrite Hl in Hn.
    simpl in Hn. injection Hn as <-. done.
  - intros Hl. unfold dict_get_default in Hn. rewrite Hl in Hn.
    vm_compute in Hn. injection Hn as <-. done.
  - intros Hl. unfold dict_get_default in Hn. rewrite Hl in Hn.
    vm_compute in Hn. injection Hn as <-. done.
Qed.

(** C9: a limit that is a string [int] rejects makes the List handler
    answer 500 "Internal server error", not 400: the conversion raises
    before the clamp and before any table call, and only the catch-all
    handles it. *)
Theorem list_bad_limit_is_500 (event qp : gmap string pyval) (s : string) (w : World) :
  ListUsers.query_parameters event = PDict qp →
  qp !! "limit" = Some (PStr s) →
  int_of_str s = None →
  py_int (PStr s) = Raise ValueError ∧
  replies_error env 500 "Internal server error" (ListUsers.lambda_handler env event) w ∧
  status_code (reply (ListUsers.lambda_handler env event) w) = Some (PInt 500) ∧
  status_code (reply (ListUsers.lambda_handler env event) w) ≠ Some (PInt 400) ∧
  calls (ListUsers.lambda_handler env event w).2 = calls w.
Proof.
  intros Hq Hl Hs.
  assert (py_int (PStr s) = Raise ValueError) as Hint by (simpl; by rewrite Hs).
  assert (replies_error env 500 "Internal server error"
            (ListUsers.lambda_handler env event) w) as Hr.
  { unfold replies_error, ListUsers.lambda_handler. run_py.
    rewrite Hq. simpl. unfold dict_get_default. rewrite Hl. simpl. by rewrite Hs. }
  split; [done|]. split; [done|].
  unfold reply, status_code. rewrite Hr. simpl.
  unfold error_envelope. rewrite format_response_status.
  split; [done|]. split; [discriminate|done].
Qed.

End ListHandler.

(* ===================================================================== *)
(** ** The record store adapter *)
(* ===================================================================== *)

(** Closes [f ∉ updatable] for a literal [f]. *)
Ltac not_updatable :=
  let H := fresh in
  unfold Dynamodb.updatable; intros H;
  repeat (apply elem_of_cons in H as [H|H]; [discriminate H|]);
  by apply elem_of_nil in H.

Section Adapter.
Context (env : Env).

Lemma apply_sets_other sets item f :
  f ∉ sets.*1 → Dynamodb.apply_sets sets item !! f = item !! f.
Proof.
  revert item. induction sets as [|[a v] sets IH]; intros item Hf; [done|].
  simpl in *. apply not_elem_of_cons in Hf as [Hne Hf].
  rewrite IH by done. by apply lookup_insert_ne.
Qed.

Lemma apply_sets_set sets item f v :
  NoDup sets.*1 → (f, v) ∈ sets → Dynamodb.apply_sets sets item !! f = Some v.
Proof.
  revert item. induction sets as [|[a u] sets IH]; intros item Hnd Hin.
  - by apply elem_of_nil in Hin.
  - simpl in *. apply NoDup_cons in Hnd as [Ha Hnd].
    apply elem_of_cons in Hin as [Heq | Hin].
    + injection Heq as -> ->. rewrite apply_sets_other by done.
      apply lookup_insert_eq.
    + by apply IH.
Qed.

Lemma elem_of_field_sets d f v :
  (f, v) ∈ Dynamodb.field_sets d ↔ f ∈ Dynamodb.updatable ∧ d !! f = Some v.
Proof.
  unfold Dynamodb.field_sets. rewrite list_elem_of_filter, elem_of_map_to_list. done.
Qed.

Lemma field_sets_keys d f :
  f ∈ (Dynamodb.field_sets d).*1 ↔ f ∈ Dynamodb.updatable ∧ is_Some (d !! f).
Proof.
  rewrite list_elem_of_fmap. split.
  - intros ([f' v] & -> & Hin). apply elem_of_field_sets in Hin as [? ?]. eauto.
  - intros [Hu [v Hv]]. exists (f, v). split; [done|]. by apply elem_of_field_sets.
Qed.

Lemma field_sets_NoDup d : NoDup (Dynamodb.field_sets d).*1.
Proof.
  apply (sublist_NoDup _ (map_to_list d).*1); [apply NoDup_fst_map_to_list|].
  unfold Dynamodb.field_sets. apply fmap_sublist, sublist_filter.
Qed.

Lemma updated_at_not_updatable : "updated_at" ∉ Dynamodb.updatable.
Proof. not_updatable. Qed.

(** The whole of [update_user] on a string key and a dict payload, for
    any table: the item stored under the key, or a fresh item holding
    only the key, receives the SET actions and is stored and returned. *)
Lemma update_user_run k d w :
  let sets := ("updated_at", PStr (utcnow_isoformat env (ticks w)))
              :: Dynamodb.field_sets d in
  let item := Dynamodb.apply_sets sets
                (default {[ "user_id" := PStr k ]} (table w !! k)) in
  Dynamodb.update_user env (PStr k) (PDict d) w =
  (Ok (PDict item),
   set_table (<[k := item]> (table w)) (record_call (UpdateItem (PStr k) sets) (tick w))).
Proof.
  intros sets item. unfold Dynamodb.update_user, Dynamodb.update_item. run_py.
  by rewrite lookup_singleton_eq.
Qed.

Lemma updated_item_lookup (d stored : gmap string pyval) (w : World) (f : string) :
  let sets := ("updated_at", PStr (utcnow_isoformat env (ticks w)))
              :: Dynamodb.field_sets d in
  Dynamodb.apply_sets sets stored !! f =
    if decide (f = "updated_at") then Some (PStr (utcnow_isoformat env (ticks w)))
    else if decide (f ∈ Dynamodb.updatable)
         then match d !! f with Some v => Some v | None => stored !! f end
         else stored !! f.
Proof.
  intros sets.
  assert (NoDup sets.*1) as Hnd.
  { subst sets. simpl. apply NoDup_cons. split; [|apply field_sets_NoDup].
    rewrite field_sets_keys. intros [Hu _]. by apply updated_at_not_updatable. }
  destruct (decide (f = "updated_at")) as [->|Hne].
  { apply apply_sets_set; [done|]. subst sets. by left. }
  destruct (decide (f ∈ Dynamodb.updatable)) as [Hu|Hu].
  - destruct (d !! f) as [v|] eqn:Hd.
    + apply apply_sets_set; [done|]. subst sets. right. by apply elem_of_field_sets.
    + apply apply_sets_other. subst sets. simpl. apply not_elem_of_cons.
      split; [done|]. rewrite field_sets_keys. intros [_ [v Hv]]. congruence.
  - apply apply_sets_other. subst sets. simpl. apply not_elem_of_cons.
    split; [done|]. rewrite field_sets_keys. intros [? _]. done.
Qed.

(** An update of an identifier the table does not hold stores a new
    record and returns it. *)
Lemma update_user_upserts k d w :
  table w !! k = None →
  ∃ item, (Dynamodb.update_user env (PStr k) (PDict d) w).1 = Ok (PDict item) ∧
          table (Dynamodb.update_user env (PStr k) (PDict d) w).2 !! k = Some item ∧
          item !! "user_id" = Some (PStr k).
Proof.
  intros Hk. rewrite update_user_run. cbn [fst snd table set_table].
  eexists. split; [done|]. split; [apply lookup_insert_eq|].
  rewrite updated_item_lookup, Hk.
  rewrite decide_False by done. rewrite decide_False by not_updatable.
  apply lookup_singleton_eq.
Qed.

Lemma add_optional_lookup k d item f :
  Dynamodb.add_optional k d item !! f =
    if decide (f = k)
    then match d !! k with Some v => Some v | None => item !! k end
    else item !! f.
Proof.
  unfold Dynamodb.add_optional. destruct (decide (f = k)) as [->|Hne].
  - destruct (d !! k); [apply lookup_insert_eq|done].
  - destruct (d !! k); [by apply lookup_insert_ne|done].
Qed.

Lemma created_item_fixed d t n f :
  f ∉ Dynamodb.updatable →
  created_item env d t n !! f =
    ({[ "user_id" := PStr (uuid4_str env n);
        "created_at" := PStr (utcnow_isoformat env t);
        "updated_at" := PStr (utcnow_isoformat env (S t)) ]} : gmap string pyval) !! f.
Proof.
  intros Hf. unfold created_item. rewrite !add_optional_lookup.
  assert (f ≠ "address" ∧ f ≠ "phone" ∧ f ≠ "age" ∧ f ≠ "name" ∧ f ≠ "email")
    as (? & ? & ? & ? & ?).
  { unfold Dynamodb.updatable in Hf. repeat split; intros ->; apply Hf; set_solver. }
  rewrite !decide_False by done.
  destruct (decide (f = "user_id")) as [->|?]; [done|].
  destruct (decide (f = "created_at")) as [->|?]; [done|].
  destruct (decide (f = "updated_at")) as [->|?]; [done|].
  rewrite !lookup_insert_ne by done. by rewrite !lookup_singleton_ne by done.
Qed.

(** The created record agrees with the submitted one on every updatable
    field that was submitted. *)
Lemma created_item_submitted d t n f :
  f ∈ Dynamodb.updatable → is_Some (d !! f) → created_item env d t n !! f = d !! f.
Proof.
  unfold Dynamodb.updatable, created_item. intros Hf [v Hv].
  rewrite !add_optional_lookup.
  repeat (apply elem_of_cons in Hf as [->|Hf]);
    [..|by apply elem_of_nil in Hf];
    rewrite ?decide_True by done; rewrite ?decide_False by done;
    rewrite ?Hv; try done.
  - rewrite lookup_insert_ne by done. rewrite lookup_insert_eq.
    unfold dict_get. by rewrite Hv.
  - do 2 rewrite lookup_insert_ne by done. rewrite lookup_insert_eq.
    unfold dict_get. by rewrite Hv.
Qed.

Lemma create_user_run d w :
  let item := created_item env d (ticks w) (draws w) in
  Dynamodb.create_user env (PDict d) w =
  (Ok (PDict item),
   set_table (<[uuid4_str env (draws w) := item]> (table w))
     (record_call (PutItem item) (tick (tick (draw w))))).
Proof.
  intros item. unfold Dynamodb.create_user, Dynamodb.put_item, Dynamodb.uuid4. run_py.
  fold (created_item env d (ticks w) (draws w)). fold item.
  assert (item !! "user_id" = Some (PStr (uuid4_str env (draws w)))) as ->; [|done].
  subst item. by rewrite created_item_fixed by not_updatable.
Qed.

(** Creating a record and fetching it by the returned identifier gives
    the created record back. *)
Lemma create_then_get d w :
  let item := created_item env d (ticks w) (draws w) in
  (Dynamodb.create_user env (PDict d) w).1 = Ok (PDict item) ∧
  item !! "user_id" = Some (PStr (uuid4_str env (draws w))) ∧
  (Dynamodb.get_user (PStr (uuid4_str env (draws w)))
     (Dynamodb.create_user env (PDict d) w).2).1 = Ok (PDict item) ∧
  item !! "created_at" = Some (PStr (utcnow_isoformat env (ticks w))) ∧
  item !! "updated_at" = Some (PStr (utcnow_isoformat env (S (ticks w)))).
Proof.
  intros item. rewrite create_user_run. fold item. cbn [fst snd].
  split; [done|]. subst item.
  rewrite !created_item_fixed by not_updatable.
  split; [done|]. split; [|done].
  unfold Dynamodb.get_user, Dynamodb.get_item. run_py.
  rewrite lookup_insert_eq. by rewrite lookup_singleton_eq.
Qed.

(** *** Stored time stamps come from the clock *)

Lemma create_user_world d w :
  table (Dynamodb.create_user env (PDict d) w).2 =
    <[uuid4_str env (draws w) := created_item env d (ticks w) (draws w)]> (table w) ∧
  ticks (Dynamodb.create_user env (PDict d) w).2 = S (S (ticks w)).
Proof. by rewrite create_user_run. Qed.

Lemma update_user_world k d w :
  table (Dynamodb.update_user env (PStr k) (PDict d) w).2 =
    <[k := Dynamodb.apply_sets
             (("updated_at", PStr (utcnow_isoformat env (ticks w))) :: Dynamodb.field_sets d)
             (default {[ "user_id" := PStr k ]} (table w !! k))]> (table w) ∧
  ticks (Dynamodb.update_user env (PStr k) (PDict d) w).2 = S (ticks w).
Proof. by rewrite update_user_run. Qed.



Lemma stamped_update_user k d w :
  stamped env w → stamped env (Dynamodb.update_user env (PStr k) (PDict d) w).2.
Proof.
  intros Hw k' item. destruct (update_user_world k d w) as [-> ->].
  destruct (decide (k' = k)) as [->|Hne].
  - rewrite lookup_insert_eq. intros Heq%(inj Some). subst item.
    exists (ticks w). split; [lia|].
    rewrite updated_item_lookup. by rewrite decide_True by done.
  - rewrite lookup_insert_ne by done. intros Hk.
    destruct (Hw k' item Hk) as (i & Hi & Hs). exists i. split; [lia|done].
Qed.


End Adapter.

(* ===================================================================== *)
(** ** Every stored stamp was read from the clock *)
(* ===================================================================== *)

Section Invariant.
Context (env : Env).

Lemma extends_refl w : extends env w w.
Proof. split; [done|]. intros k item Hk. by left. Qed.

Lemma extends_trans w1 w2 w3 :
  extends env w1 w2 → extends env w2 w3 → extends env w1 w3.
Proof.
  intros [Ht12 H12] [Ht23 H23]. split; [lia|]. intros k item Hk.
  destruct (H23 k item Hk) as [Hk2 | (i & Hi & Hs)].
  - destruct (H12 k item Hk2) as [Hk1 | (i & Hi & Hs)]; [by left|].
    right. exists i. split; [lia|done].
  - right. exists i. split; [lia|done].
Qed.

(** A world with the same table and a clock read at least as often. *)
Lemma extends_same_table w w' :
  table w' = table w → (ticks w ≤ ticks w')%nat → extends env w w'.
Proof. intros Ht Hn. split; [done|]. intros k item Hk. left. by rewrite <- Ht. Qed.

Lemma extends_stamped w w' : stamped env w → extends env w w' → stamped env w'.
Proof.
  intros Hw [Ht Hext] k item Hk.
  destruct (Hext k item Hk) as [Hk0 | (i & Hi & Hs)].
  - destruct (Hw k item Hk0) as (i & Hi & Hs). exists i. split; [lia|done].
  - exists i. split; [lia|done].
Qed.

(** *** The monad's combinators *)

Lemma steady_ret {A} (a : A) : steady env (ret a).
Proof. intros w. apply extends_refl. Qed.

Lemma steady_raise {A} (e : exn) : steady env (raise e : M A).
Proof. intros w. apply extends_refl. Qed.

Lemma steady_lift {A} (r : result A) : steady env (lift r).
Proof. intros w. apply extends_refl. Qed.

Lemma steady_bind {A B} (m : M A) (k : A → M B) :
  steady env m → (∀ a, steady env (k a)) → steady env (bind m k).
Proof.
  intros Hm Hk w. unfold bind. specialize (Hm w).
  destruct (m w) as [[a|e] w1]; simpl in *; [|done].
  eapply extends_trans; [exact Hm|apply Hk].
Qed.

Lemma steady_try_except {A} (m : M A) (h : exn → M A) :
  steady env m → (∀ e, steady env (h e)) → steady env (try_except m h).
Proof.
  intros Hm Hh w. unfold try_except. specialize (Hm w).
  destruct (m w) as [[a|e] w1]; simpl in *; [done|].
  eapply extends_trans; [exact Hm|apply Hh].
Qed.

(** *** The formatter and the adapter *)

Lemma steady_utcnow : steady env (Dynamodb.utcnow env).
Proof. intros w. apply extends_same_table; simpl; [done|lia]. Qed.

Lemma steady_format_error_response status message :
  steady env (Dynamodb.format_error_response env status message).
Proof. intros w. apply extends_same_table; simpl; [done|lia]. Qed.

Lemma steady_format_success_response data :
  steady env (Dynamodb.format_success_response env data).
Proof. intros w. apply extends_same_table; simpl; [done|lia]. Qed.

Lemma steady_get_user user_id : steady env (Dynamodb.get_user user_id).
Proof.
  intros w. apply extends_same_table;
    unfold Dynamodb.get_user, Dynamodb.get_item, bind;
    destruct user_id; simpl; try done;
    by destruct (_ !! "Item").
Qed.

Lemma steady_list_users limit last_evaluated_key :
  steady env (Dynamodb.list_users env limit last_evaluated_key).
Proof.
  intros w. apply extends_same_table;
    unfold Dynamodb.list_users, Dynamodb.scan; run_py;
    (destruct (_ !! "LastEvaluatedKey"); simpl;
     [destruct (py_get _ _); simpl; [|done]|]; by destruct (py_len _)).
Qed.

Lemma steady_create_user user_data : steady env (Dynamodb.create_user env user_data).
Proof.
  intros w. destruct user_data as [| | | | | |d];
    try (apply extends_same_table; simpl; [done|lia]).
  destruct (create_user_world env d w) as [Ht Hn]. split; [lia|].
  intros k item. rewrite Ht, Hn.
  destruct (decide (k = uuid4_str env (draws w))) as [->|Hne].
  - rewrite lookup_insert_eq. intros Heq%(inj Some). subst item.
    right. exists (S (ticks w)). split; [lia|].
    by rewrite created_item_fixed by not_updatable.
  - rewrite lookup_insert_ne by done. by left.
Qed.

Lemma steady_update_user user_id update_data :
  steady env (Dynamodb.update_user env user_id update_data).
Proof.
  intros w. destruct update_data as [| | | | | |d];
    try (apply extends_same_table; simpl; [done|lia]).
  destruct user_id as [| | | |k| |];
    try (apply extends_same_table; simpl; [done|lia]).
  destruct (update_user_world env k d w) as [Ht Hn]. split; [lia|].
  intros k' item. rewrite Ht, Hn.
  destruct (decide (k' = k)) as [->|Hne].
  - rewrite lookup_insert_eq. intros Heq%(inj Some). subst item.
    right. exists (ticks w). split; [lia|].
    rewrite updated_item_lookup. by rewrite decide_True by done.
  - rewrite lookup_insert_ne by done. by left.
Qed.

(** *** The handlers *)

(** Walks through a handler: each combinator and adapter call by its
    lemma, a [match] or an [if] by cases. *)
Ltac steady_step :=
  lazymatch goal with
  | |- steady _ (Dynamodb.format_error_response _ _ _) =>
      apply steady_format_error_response
  | |- steady _ (Dynamodb.format_success_response _ _) =>
      apply steady_format_success_response
  | |- steady _ (Dynamodb.get_user _) => apply steady_get_user
  | |- steady _ (Dynamodb.list_users _ _ _) => apply steady_list_users
  | |- steady _ (Dynamodb.create_user _ _) => apply steady_create_user
  | |- steady _ (Dynamodb.update_user _ _ _) => apply steady_update_user
  | |- steady _ (lift _) => apply steady_lift
  | |- steady _ (ret _) => apply steady_ret
  | |- steady _ (raise _) => apply steady_raise
  | |- steady _ (try_except _ _) => apply steady_try_except; [|intros ?]
  | |- steady _ (bind _ _) => apply steady_bind; [|intros ?]
  | |- steady _ (match ?x with _ => _ end) => destruct x
  end.

Ltac steady_walk := cbv zeta; repeat steady_step.

Lemma steady_create_handler event : steady env (CreateUser.lambda_handler env event).
Proof. unfold CreateUser.lambda_handler. steady_walk. Qed.

Lemma steady_get_handler event : steady env (GetUser.lambda_handler env event).
Proof. unfold GetUser.lambda_handler. steady_walk. Qed.

Lemma steady_list_handler event : steady env (ListUsers.lambda_handler env event).
Proof. unfold ListUsers.lambda_handler. steady_walk. Qed.

Lemma steady_update_handler event : steady env (UpdateUser.lambda_handler env event).
Proof. unfold UpdateUser.lambda_handler. steady_walk. Qed.

Lemma steady_handle r : steady env (handle env r).
Proof.
  destruct r; simpl.
  - apply steady_create_handler.
  - apply steady_get_handler.
  - apply steady_list_handler.
  - apply steady_update_handler.
Qed.

(** In every world the handlers can reach from an empty table, each
    record's [updated_at] is an earlier reading of the clock. *)
Lemma reachable_stamped w : reachable env w → stamped env w.
Proof.
  induction 1 as [w Hw | w r _ IH].
  - intros k item Hk. rewrite Hw in Hk. by rewrite lookup_empty in Hk.
  - eapply extends_stamped; [exact IH|apply steady_handle].
Qed.

(** A map with an entry is truthy. *)
Lemma dict_nonempty_lookup (m : gmap string pyval) k v :
  m !! k = Some v → dict_nonempty m = true.
Proof.
  intros Hk. unfold dict_nonempty.
  destruct (map_to_list m) eqn:E; [|done].
  apply map_to_list_empty_iff in E. subst m. by rewrite lookup_empty in Hk.
Qed.

(** The Update handler on an identifier the table does not hold, with a
    body that parses to a valid record: the answer is the success
    envelope around a record that the table now holds. *)
Lemma update_handler_unknown_id event k body d w :
  has_user_id event (PStr k) →
  event !! "body" = Some body →
  json_loads env body = Ok (PDict d) →
  Dynamodb.validate_user_data env (PDict d) = Ok [] →
  table w !! k = None →
  ∃ item,
    (UpdateUser.lambda_handler env event w).1 =
      Ok (success_envelope
            (PDict {[ "message" := PStr "User updated successfully";
                      "user" := PDict item ]})
            (utcnow_isoformat env (S (ticks w)))) ∧
    table (UpdateUser.lambda_handler env event w).2 !! k = Some item.
Proof.
  intros [Hid Ht] Hb Hj Hv Hk.
  destruct (update_user_upserts env k d w Hk) as (item & Hr & Htab & Huid).
  exists item. unfold UpdateUser.lambda_handler. run_py.
  rewrite Hid. simpl. simpl in Ht. rewrite Ht. simpl. rewrite Hb, Hj, Hv. simpl.
  pose proof (update_user_world env k d w) as [_ Hn].
  destruct (Dynamodb.update_user env (PStr k) (PDict d) w) as [r w1].
  simpl in Hr, Htab, Hn. subst r. simpl.
  rewrite (dict_nonempty_lookup item "user_id" (PStr k) Huid). simpl.
  by rewrite Hn.
Qed.

End Invariant.

(* ===================================================================== *)
(** ** The handlers on the sample requests *)
(* ===================================================================== *)

Lemma sample_clock_monotone : clock_monotone Sample.env.
Proof.
  intros i j Hij. unfold Sample.env, utcnow_isoformat, Sample.clock.
  destruct (decide (6 ≤ j)%nat) as [Hj|Hj].
  - rewrite (nth_overflow _ _ (n := j)) by (simpl; lia).
    do 6 (destruct i as [|i]; [reflexivity|]).
    rewrite nth_overflow by (simpl; lia). reflexivity.
  - do 6 (destruct j as [|j];
          [do 6 (destruct i as [|i]; [first [reflexivity | lia]|]); lia|]).
    lia.
Qed.




(** C3: creating John in the empty world and fetching him by the
    returned identifier gives the created record back, but the record
    carries two different clock readings: [created_at] is the first and
    [updated_at] the second. *)
Theorem create_user_reads_clock_twice :
  Dynamodb.validate_user_data Sample.env (PDict Sample.john) = Ok [] ∧
  Dynamodb.create_user Sample.env (PDict Sample.john) Sample.empty_world =
    (Ok (PDict Sample.john_item), Sample.john_created) ∧
  (Dynamodb.get_user (PStr Sample.john_id) Sample.john_created).1 =
    Ok (PDict Sample.john_item) ∧
  Sample.john_item !! "created_at" = Some (PStr "2023-01-01T00:00:00.000001") ∧
  Sample.john_item !! "updated_at" = Some (PStr "2023-01-01T00:00:00.000002") ∧
  Sample.john_item !! "created_at" ≠ Sample.john_item !! "updated_at".
Proof.
  repeat split; try (vm_compute; reflexivity).
  vm_compute. discriminate.
Qed.


(** Witness of C5: the query [limit=5000]. *)
Lemma list_limit_is_clamped_witness :
  ListUsers.query_parameters (Sample.limit_query "5000") =
    PDict {[ "limit" := PStr "5000" ]} ∧
  py_int (PStr "5000") = Ok 5000 ∧
  ∃ start, calls (ListUsers.lambda_handler Sample.env (Sample.limit_query "5000")
                    Sample.empty_world).2 = [Scan 1000 start].
Proof.
  split; [reflexivity|]. split; [reflexivity|].
  destruct (list_limit_is_clamped Sample.env (Sample.limit_query "5000")
              {[ "limit" := PStr "5000" ]} 5000 Sample.empty_world
              eq_refl eq_refl) as [[start Hs] _].
  exists start. exact Hs.
Defined.

(** Witness of C6: John with a phone number. *)
Lemma validate_accepts_valid_record_witness :
  Sample.john_with_phone !! "name" = Some (PStr "John Doe") ∧
  Sample.john_with_phone !! "email" = Some (PStr "john@example.com") ∧
  Sample.john_with_phone !! "age" = Some (PInt 30) ∧
  Sample.john_with_phone !! "phone" = Some (PStr "123-456-7890") ∧
  Dynamodb.validate_user_data Sample.env (PDict Sample.john_with_phone) = Ok [].
Proof.
  split; [reflexivity|]. split; [reflexivity|]. split; [reflexivity|].
  split; [reflexivity|].
  apply (validate_accepts_valid_record Sample.env Sample.john_with_phone
           "John Doe" "john@example.com").
  - reflexivity.
  - discriminate.
  - reflexivity.
  - reflexivity.
  - intros a Ha. vm_compute in Ha. injection Ha as <-. exists 30.
    split; [reflexivity|lia].
  - intros p Hp _. vm_compute in Hp. injection Hp as <-.
    split; [reflexivity|]. vm_compute. discriminate.
Defined.

(** Counterexample to C7 as stated: the age 150.5 lies outside [0, 150],
    [int] truncates it to 150, and the validator returns the empty list,
    which holds no age error; and on a record with the email 5 and the
    age 200 the validator returns no list at all. *)
Lemma validate_accepts_age_150_5 :
  Sample.john_aged_150_5 !! "age" = Some (PFloat (FFin 301 (-1))) ∧
  150 * 2 ^ 1 < 301 ∧
  py_int (PFloat (FFin 301 (-1))) = Ok 150 ∧
  Dynamodb.validate_user_data Sample.env (PDict Sample.john_aged_150_5) = Ok [] ∧
  ¬ (∃ errors, Dynamodb.validate_user_data Sample.env (PDict Sample.john_aged_150_5)
               = Ok errors ∧ ∃ e, e ∈ errors ∧ is_age_error e) ∧
  Sample.email_5_aged_200 !! "age" = Some (PInt 200) ∧
  Dynamodb.validate_user_data Sample.env (PDict Sample.email_5_aged_200) = Raise TypeError.
Proof.
  assert (Dynamodb.validate_user_data Sample.env (PDict Sample.john_aged_150_5) = Ok [])
    as Hv by (vm_compute; reflexivity).
  split; [reflexivity|]. split; [reflexivity|]. split; [reflexivity|].
  split; [exact Hv|]. split; [|split; vm_compute; reflexivity].
  rewrite Hv. intros (errors & [= <-] & e & He & _).
  by apply elem_of_nil in He.
Qed.

(** Witness of C7 as amended: John aged 200. *)
Lemma validate_reports_bad_age_witness :
  Sample.john_aged_200 !! "age" = Some (PInt 200) ∧
  ∃ errors, Dynamodb.validate_user_data Sample.env (PDict Sample.john_aged_200) = Ok errors ∧
            ∃ e, e ∈ errors ∧ is_age_error e.
Proof.
  split; [reflexivity|].
  apply (validate_reports_bad_age Sample.env Sample.john_aged_200 (PInt 200)).
  - right. exists true. reflexivity.
  - reflexivity.
  - right. right. exists 200. split; [reflexivity|]. right. lia.
Defined.

(** Counterexample to C8 as stated: an Update request with a malformed
    body and no user_id is answered "User ID is required", not "Invalid
    JSON in request body"; and a Create request whose body is [null] is
    answered 500. *)
Lemma update_without_id_asks_for_id :
  Sample.malformed_without_id !! "body" = Some (PStr "invalid json") ∧
  json_loads Sample.env (PStr "invalid json") = Raise JSONDecodeError ∧
  replies_error Sample.env 400 "User ID is required"
    (UpdateUser.lambda_handler Sample.env Sample.malformed_without_id) Sample.empty_world ∧
  error_message (reply (UpdateUser.lambda_handler Sample.env Sample.malformed_without_id)
                   Sample.empty_world) = Some (PStr "User ID is required") ∧
  ¬ replies_error Sample.env 400 "Invalid JSON in request body"
      (UpdateUser.lambda_handler Sample.env Sample.malformed_without_id) Sample.empty_world ∧
  Sample.null_body !! "body" = Some PNone ∧
  json_loads Sample.env PNone = Raise TypeError ∧
  replies_error Sample.env 500 "Internal server error"
    (CreateUser.lambda_handler Sample.env Sample.null_body) Sample.empty_world.
Proof.
  split; [reflexivity|]. split; [vm_compute; reflexivity|].
  split; [vm_compute; reflexivity|]. split; [vm_compute; reflexivity|].
  split; [|repeat split; vm_compute; reflexivity].
  unfold replies_error. intros H.
  apply (f_equal (λ r, match r.1 with Ok e => error_message e | Raise _ => None end)) in H.
  vm_compute in H. discriminate H.
Qed.

(** Witness of C8 as amended: a malformed body and a missing body, each
    with the user_id "u-1". *)
Lemma bad_body_is_400_witness :
  has_user_id Sample.malformed_with_id (PStr "u-1") ∧
  json_loads Sample.env (PStr "invalid json") = Raise JSONDecodeError ∧
  replies_error Sample.env 400 "Invalid JSON in request body"
    (CreateUser.lambda_handler Sample.env Sample.malformed_with_id) Sample.empty_world ∧
  replies_error Sample.env 400 "Invalid JSON in request body"
    (UpdateUser.lambda_handler Sample.env Sample.malformed_with_id) Sample.empty_world ∧
  Sample.bodyless_with_id !! "body" = None ∧
  replies_error Sample.env 400 "Request body is required"
    (UpdateUser.lambda_handler Sample.env Sample.bodyless_with_id) Sample.empty_world.
Proof.
  assert (has_user_id Sample.malformed_with_id (PStr "u-1")) as Hid1
    by (split; reflexivity).
  assert (has_user_id Sample.bodyless_with_id (PStr "u-1")) as Hid2
    by (split; reflexivity).
  assert (json_loads Sample.env (PStr "invalid json") = Raise JSONDecodeError)
    as Hbad by (vm_compute; reflexivity).
  destruct (bad_body_is_400 Sample.env Sample.malformed_with_id Sample.empty_world
              "Invalid JSON in request body") as (Hc & _ & _ & Hu).
  { left. split; [|reflexivity]. exists (PStr "invalid json"). split; [reflexivity|exact Hbad]. }
  destruct (bad_body_is_400 Sample.env Sample.bodyless_with_id Sample.empty_world
              "Request body is required") as (_ & _ & _ & Hu').
  { right. split; reflexivity. }
  split; [exact Hid1|]. split; [exact Hbad|]. split; [exact Hc|].
  split; [exact (proj1 (Hu _ Hid1))|]. split; [reflexivity|].
  exact (proj1 (Hu' _ Hid2)).
Defined.

(** Witness of C9: the query [limit=abc]. *)
Lemma list_bad_limit_is_500_witness :
  int_of_str "abc" = None ∧
  replies_error Sample.env 500 "Internal server error"
    (ListUsers.lambda_handler Sample.env (Sample.limit_query "abc")) Sample.empty_world.
Proof.
  split; [reflexivity|].
  apply (list_bad_limit_is_500 Sample.env (Sample.limit_query "abc")
           {[ "limit" := PStr "abc" ]} "abc" Sample.empty_world);
    reflexivity.
Defined.

(** Witness of C10: the body [{"name": "John Doe", "email": 5}]. *)
Lemma non_container_email_is_500_witness :
  json_loads Sample.env Sample.email_5_body = Ok (PDict Sample.email_5) ∧
  Sample.email_5 !! "email" = Some (PInt 5) ∧
  Dynamodb.validate_user_data Sample.env (PDict Sample.email_5) = Raise TypeError ∧
  replies_error Sample.env 500 "Internal server error"
    (CreateUser.lambda_handler Sample.env Sample.email_5_with_id) Sample.empty_world ∧
  replies_error Sample.env 500 "Internal server error"
    (UpdateUser.lambda_handler Sample.env Sample.email_5_with_id) Sample.empty_world.
Proof.
  assert (json_loads Sample.env Sample.email_5_body = Ok (PDict Sample.email_5))
    as Hj by (vm_compute; reflexivity).
  destruct (non_container_email_is_500 Sample.env Sample.email_5_with_id
              Sample.empty_world Sample.email_5_body (PInt 5) Sample.email_5
              eq_refl Hj eq_refl eq_refl eq_refl) as (Hv & Hc & Hu).
  split; [exact Hj|]. split; [reflexivity|]. split; [exact Hv|]. split; [exact Hc|].
  apply (Hu (PStr "u-1")). split; reflexivity.
Defined.

(* ===================================================================== *)
(** ** The validator, message by message *)
(* ===================================================================== *)

Section ValidatorMessages.
Context (env : Env).

Lemma email_default_get d :
  py_truthy (dict_get d "email") = true →
  dict_get_default d "email" (PStr EmptyString) = dict_get d "email".
Proof.
  unfold dict_get_default, dict_get. intros Ht.
  destruct (d !! "email"); [done|discriminate Ht].
Qed.

(** Each check appends to the list it is given and leaves that list's
    entries alone. *)
Lemma check_name_app d errors :
  Dynamodb.check_name d errors = (errors ++ Dynamodb.check_name d [])%list.
Proof.
  unfold Dynamodb.check_name, Dynamodb.append.
  destruct (negb _); simpl; [done|by rewrite app_nil_r].
Qed.

Lemma check_email_app d errors :
  Dynamodb.check_email d errors =
  rbind (Dynamodb.check_email d []) (λ part, Ok (errors ++ part)%list).
Proof.
  unfold Dynamodb.check_email, Dynamodb.append.
  destruct (negb (py_truthy _)); simpl; [done|].
  destruct (py_contains_at _) as [has_at|e]; simpl; [|done].
  destruct (negb has_at); simpl; [done|by rewrite app_nil_r].
Qed.

Lemma check_age_app d errors :
  Dynamodb.check_age d errors =
  rbind (Dynamodb.check_age d []) (λ part, Ok (errors ++ part)%list).
Proof.
  unfold Dynamodb.check_age, Dynamodb.append.
  destruct (d !! "age") as [v|]; simpl; [|by rewrite app_nil_r].
  destruct (py_int v) as [n|[]]; simpl; try done.
  destruct (_ || _); simpl; [done|by rewrite app_nil_r].
Qed.

Lemma check_phone_app d errors :
  Dynamodb.check_phone env d errors = (errors ++ Dynamodb.check_phone env d [])%list.
Proof.
  unfold Dynamodb.check_phone, Dynamodb.append.
  destruct (d !! "phone") as [v|]; simpl; [|by rewrite app_nil_r].
  destruct (py_truthy v); simpl; [|by rewrite app_nil_r].
  destruct (_ || _); simpl; [done|by rewrite app_nil_r].
Qed.

(** The list the validator returns is made of the four checks' own
    lists, in the order name, email, age, phone. *)
Lemma validate_parts d errors :
  Dynamodb.validate_user_data env (PDict d) = Ok errors ↔
  ∃ e a, Dynamodb.check_email d [] = Ok e ∧ Dynamodb.check_age d [] = Ok a ∧
         errors = (Dynamodb.check_name d [] ++ e ++ a ++ Dynamodb.check_phone env d [])%list.
Proof.
  unfold Dynamodb.validate_user_data. simpl.
  rewrite check_email_app. destruct (Dynamodb.check_email d []) as [e|x]; simpl.
  - rewrite check_age_app. destruct (Dynamodb.check_age d []) as [a|x]; simpl.
    + rewrite check_phone_app. rewrite <- !app_assoc. split.
      * intros [= <-]. by exists e, a.
      * intros (e' & a' & [= <-] & [= <-] & ->). done.
    + split; [done|]. by intros (? & ? & _ & ? & _).
  - split; [done|]. by intros (? & ? & ? & _).
Qed.

Lemma in_check_name d x :
  x ∈ Dynamodb.check_name d [] ↔
  x = Dynamodb.name_required ∧ py_truthy (dict_get d "name") = false.
Proof.
  unfold Dynamodb.check_name, Dynamodb.append.
  destruct (py_truthy _); simpl.
  - split; [by intros ?%elem_of_nil|by intros [_ ?]].
  - rewrite list_elem_of_singleton. split; [done|by intros [? _]].
Qed.

Lemma in_check_email d e x :
  Dynamodb.check_email d [] = Ok e →
  x ∈ e ↔
  (x = Dynamodb.email_required ∧ py_truthy (dict_get d "email") = false) ∨
  (x = Dynamodb.email_invalid ∧ py_truthy (dict_get d "email") = true ∧
   py_contains_at (dict_get d "email") = Ok false).
Proof.
  unfold Dynamodb.check_email, Dynamodb.append.
  destruct (py_truthy (dict_get d "email")) eqn:Ht; simpl.
  - rewrite email_default_get by done.
    destruct (py_contains_at _) as [[]|]; simpl; intros [= <-].
    + split; [by intros ?%elem_of_nil|]. intros [[_ ?]|(_ & _ & ?)]; done.
    + rewrite list_elem_of_singleton. split; [by right|].
      by intros [[_ ?]|[? _]].
  - intros [= <-]. rewrite list_elem_of_singleton. split; [by left|].
    by intros [[? _]|(_ & ? & _)].
Qed.

Lemma in_check_age d a x :
  Dynamodb.check_age d [] = Ok a →
  x ∈ a ↔
  (x = Dynamodb.age_out_of_range ∧
   ∃ v n, d !! "age" = Some v ∧ py_int v = Ok n ∧ (n < 0 ∨ 150 < n)) ∨
  (x = Dynamodb.age_not_a_number ∧
   ∃ v, d !! "age" = Some v ∧ (py_int v = Raise ValueError ∨ py_int v = Raise TypeError)).
Proof.
  unfold Dynamodb.check_age, Dynamodb.append.
  destruct (d !! "age") as [v|]; simpl.
  - destruct (py_int v) as [n|[]] eqn:Hn; simpl; try done; intros [= <-].
    + destruct ((n <? 0) || (n >? 150)) eqn:Hr; simpl.
      * apply orb_true_iff in Hr. rewrite Z.gtb_ltb, !Z.ltb_lt in Hr.
        rewrite list_elem_of_singleton. split.
        -- intros ->. left. split; [done|]. by exists v, n.
        -- intros [[? _]|(_ & v' & Hv' & Hx)]; [done|].
           injection Hv' as <-. rewrite Hn in Hx. by destruct Hx.
      * apply orb_false_iff in Hr. rewrite Z.gtb_ltb, !Z.ltb_ge in Hr.
        split; [by intros ?%elem_of_nil|].
        intros [(_ & v' & n' & Hv' & Hn' & Hb)|(_ & v' & Hv' & Hx)];
          injection Hv' as <-.
        -- rewrite Hn in Hn'. injection Hn' as <-. lia.
        -- rewrite Hn in Hx. by destruct Hx.
    + rewrite list_elem_of_singleton. split.
      * intros ->. right. split; [done|]. exists v. auto.
      * intros [(_ & v' & n' & Hv' & Hn' & _)|[? _]]; [|done].
        injection Hv' as <-. by rewrite Hn in Hn'.
    + rewrite list_elem_of_singleton. split.
      * intros ->. right. split; [done|]. exists v. auto.
      * intros [(_ & v' & n' & Hv' & Hn' & _)|[? _]]; [|done].
        injection Hv' as <-. by rewrite Hn in Hn'.
  - intros [= <-]. split; [by intros ?%elem_of_nil|].
    intros [(_ & v' & n' & Hv' & _)|(_ & v' & Hv' & _)]; done.
Qed.

Lemma in_check_phone d x :
  x ∈ Dynamodb.check_phone env d [] ↔
  x = Dynamodb.phone_invalid ∧
  ∃ v, d !! "phone" = Some v ∧ py_truthy v = true ∧
       (isdigit (Dynamodb.stripped_phone env v) = false ∨
        Z.of_nat (String.length (Dynamodb.stripped_phone env v)) < 10).
Proof.
  unfold Dynamodb.check_phone, Dynamodb.append.
  destruct (d !! "phone") as [v|]; simpl.
  - destruct (py_truthy v) eqn:Ht; simpl.
    + destruct (negb _ || _) eqn:Hb; simpl.
      * apply orb_true_iff in Hb. rewrite negb_true_iff, Z.ltb_lt in Hb.
        rewrite list_elem_of_singleton. split; [|by intros [? _]].
        intros ->. split; [done|]. by exists v.
      * apply orb_false_iff in Hb. rewrite negb_false_iff, Z.ltb_ge in Hb.
        split; [by intros ?%elem_of_nil|].
        intros (_ & v' & Hv' & _ & Hx). injection Hv' as <-.
        destruct Hb as [Hd Hl]. destruct Hx as [Hx|Hx]; [congruence|lia].
    + split; [by intros ?%elem_of_nil|].
      intros (_ & v' & Hv' & Ht' & _). injection Hv' as <-. congruence.
  - split; [by intros ?%elem_of_nil|]. by intros (_ & v' & Hv' & _).
Qed.

(** Where each message of a returned list comes from. *)
Lemma in_validate d errors x :
  Dynamodb.validate_user_data env (PDict d) = Ok errors →
  x ∈ errors ↔
  x ∈ Dynamodb.check_name d [] ∨
  (∃ e, Dynamodb.check_email d [] = Ok e ∧ x ∈ e) ∨
  (∃ a, Dynamodb.check_age d [] = Ok a ∧ x ∈ a) ∨
  x ∈ Dynamodb.check_phone env d [].
Proof.
  intros (e & a & He & Ha & ->)%validate_parts.
  rewrite !elem_of_app. split.
  - intros [?|[?|[?|?]]]; eauto 6.
  - intros [?|[(e' & He' & ?)|[(a' & Ha' & ?)|?]]]; auto.
    + rewrite He in He'. injection He' as <-. auto.
    + rewrite Ha in Ha'. injection Ha' as <-. auto.
Qed.

(** Closes a goal whose hypothesis [H] equates two different messages. *)
Ltac other_message H :=
  exfalso;
  unfold Dynamodb.name_required, Dynamodb.email_required, Dynamodb.email_invalid,
    Dynamodb.age_out_of_range, Dynamodb.age_not_a_number, Dynamodb.phone_invalid in H;
  discriminate H.

(** The two directions of the validator's verdict. *)
Lemma validate_ok_elim (d : gmap string pyval) :
  Dynamodb.validate_user_data env (PDict d) = Ok [] →
  py_truthy (dict_get d "name") = true ∧
  py_truthy (dict_get d "email") = true ∧
  py_contains_at (dict_get d "email") = Ok true ∧
  age_ok d ∧ phone_ok env d.
Proof.
  intros (e & a & He & Ha & Happ)%validate_parts.
  symmetry in Happ. apply app_eq_nil in Happ as [Hn Happ].
  apply app_eq_nil in Happ as [-> Happ]. apply app_eq_nil in Happ as [-> Hp].
  split.
  { destruct (py_truthy (dict_get d "name")) eqn:Ht; [done|].
    assert (Dynamodb.name_required ∈ Dynamodb.check_name d []) as Hin
      by by apply in_check_name.
    rewrite Hn in Hin. by apply elem_of_nil in Hin. }
  assert (py_truthy (dict_get d "email") = true) as Hte.
  { destruct (py_truthy (dict_get d "email")) eqn:Ht; [done|].
    assert (Dynamodb.email_required ∈ ([] : list string)) as Hin
      by (apply (in_check_email d [] _ He); by left).
    by apply elem_of_nil in Hin. }
  split; [done|]. split.
  { unfold Dynamodb.check_email in He. rewrite Hte in He. simpl in He.
    rewrite email_default_get in He by done.
    destruct (py_contains_at (dict_get d "email")) as [[]|]; [done|done|done]. }
  split.
  { intros v Hv. unfold Dynamodb.check_age in Ha. rewrite Hv in Ha.
    destruct (py_int v) as [n|[]]; try done.
    exists n. split; [done|].
    destruct ((n <? 0) || (n >? 150)) eqn:Hr; [done|].
    apply orb_false_iff in Hr. rewrite Z.gtb_ltb, !Z.ltb_ge in Hr. lia. }
  { intros v Hv Ht. unfold Dynamodb.check_phone in Hp. rewrite Hv, Ht in Hp.
    destruct (negb _ || _) eqn:Hb; [done|].
    apply orb_false_iff in Hb. by rewrite negb_false_iff, Z.ltb_ge in Hb. }
Qed.

Lemma validate_ok_intro (d : gmap string pyval) :
  py_truthy (dict_get d "name") = true →
  py_truthy (dict_get d "email") = true →
  py_contains_at (dict_get d "email") = Ok true →
  age_ok d → phone_ok env d →
  Dynamodb.validate_user_data env (PDict d) = Ok [].
Proof.
  intros Hn Hte Hat Ha Hp.
  unfold Dynamodb.validate_user_data. simpl.
  rewrite check_name_pass by done.
  rewrite (check_email_pass d []) by done. simpl.
  rewrite check_age_pass by done. simpl.
  by rewrite check_phone_pass.
Qed.

(** X1: the validator returns the empty list exactly when the name is
    truthy, the email is truthy and holds "@", the age (if present) is
    turned by [int] into an integer of [0, 150], and the phone (if
    present and truthy) strips to at least ten digits. *)
Theorem validate_ok_iff (d : gmap string pyval) :
  Dynamodb.validate_user_data env (PDict d) = Ok [] ↔
  py_truthy (dict_get d "name") = true ∧
  py_truthy (dict_get d "email") = true ∧
  py_contains_at (dict_get d "email") = Ok true ∧
  age_ok d ∧ phone_ok env d.
Proof.
  split; [apply validate_ok_elim|].
  intros (? & ? & ? & ? & ?). by apply validate_ok_intro.
Qed.

(** X2: in a returned list, "Name is required" is there exactly when the
    name is missing or falsy. *)
Theorem name_error_iff (d : gmap string pyval) (errors : list string) :
  Dynamodb.validate_user_data env (PDict d) = Ok errors →
  Dynamodb.name_required ∈ errors ↔ py_truthy (dict_get d "name") = false.
Proof.
  intros Hv. rewrite (in_validate d errors _ Hv). split.
  - intros [Hin|[(e & He & Hin)|[(a & Ha & Hin)|Hin]]].
    + by apply in_check_name in Hin as [_ ?].
    + apply (in_check_email d e _ He) in Hin as [[H _]|[H _]]; other_message H.
    + apply (in_check_age d a _ Ha) in Hin as [[H _]|[H _]]; other_message H.
    + apply in_check_phone in Hin as [H _]. other_message H.
  - intros Ht. left. by apply in_check_name.
Qed.

(** X3: in a returned list, "Email is required" is there exactly when
    the email is missing or falsy, "Email must be valid" exactly when it
    is truthy and the "@" test fails, and never both. *)
Theorem email_errors_iff (d : gmap string pyval) (errors : list string) :
  Dynamodb.validate_user_data env (PDict d) = Ok errors →
  (Dynamodb.email_required ∈ errors ↔ py_truthy (dict_get d "email") = false) ∧
  (Dynamodb.email_invalid ∈ errors ↔
     py_truthy (dict_get d "email") = true ∧
     py_contains_at (dict_get d "email") = Ok false) ∧
  ¬ (Dynamodb.email_required ∈ errors ∧ Dynamodb.email_invalid ∈ errors).
Proof.
  intros Hv.
  assert (Dynamodb.email_required ∈ errors ↔ py_truthy (dict_get d "email") = false)
    as Hreq.
  { rewrite (in_validate d errors _ Hv). split.
    - intros [Hin|[(e & He & Hin)|[(a & Ha & Hin)|Hin]]].
      + apply in_check_name in Hin as [H _]. other_message H.
      + apply (in_check_email d e _ He) in Hin as [[_ ?]|[H _]]; [done|other_message H].
      + apply (in_check_age d a _ Ha) in Hin as [[H _]|[H _]]; other_message H.
      + apply in_check_phone in Hin as [H _]. other_message H.
    - intros Ht. right. left.
      apply validate_parts in Hv as (e & a & He & _).
      exists e. split; [done|]. apply (in_check_email d e _ He). by left. }
  assert (Dynamodb.email_invalid ∈ errors ↔
            py_truthy (dict_get d "email") = true ∧
            py_contains_at (dict_get d "email") = Ok false) as Hinv.
  { rewrite (in_validate d errors _ Hv). split.
    - intros [Hin|[(e & He & Hin)|[(a & Ha & Hin)|Hin]]].
      + apply in_check_name in Hin as [H _]. other_message H.
      + apply (in_check_email d e _ He) in Hin as [[H _]|[_ ?]]; [other_message H|done].
      + apply (in_check_age d a _ Ha) in Hin as [[H _]|[H _]]; other_message H.
      + apply in_check_phone in Hin as [H _]. other_message H.
    - intros Ht. right. left.
      apply validate_parts in Hv as (e & a & He & _).
      exists e. split; [done|]. apply (in_check_email d e _ He). by right. }
  split; [done|]. split; [done|].
  intros [H1%Hreq [H2 _]%Hinv]. congruence.
Qed.

(** X4: in a returned list, "Age must be between 0 and 150" is there
    exactly when [int] turns the age into an integer outside [0, 150],
    and "Age must be a number" exactly when [int] raises [ValueError] or
    [TypeError] on it. *)
Theorem age_errors_iff (d : gmap string pyval) (errors : list string) :
  Dynamodb.validate_user_data env (PDict d) = Ok errors →
  (Dynamodb.age_out_of_range ∈ errors ↔
     ∃ v n, d !! "age" = Some v ∧ py_int v = Ok n ∧ (n < 0 ∨ 150 < n)) ∧
  (Dynamodb.age_not_a_number ∈ errors ↔
     ∃ v, d !! "age" = Some v ∧
          (py_int v = Raise ValueError ∨ py_int v = Raise TypeError)).
Proof.
  intros Hv. split.
  - rewrite (in_validate d errors _ Hv). split.
    + intros [Hin|[(e & He & Hin)|[(a & Ha & Hin)|Hin]]].
      * apply in_check_name in Hin as [H _]. other_message H.
      * apply (in_check_email d e _ He) in Hin as [[H _]|[H _]]; other_message H.
      * apply (in_check_age d a _ Ha) in Hin as [[_ ?]|[H _]]; [done|other_message H].
      * apply in_check_phone in Hin as [H _]. other_message H.
    + intros Hage. right. right. left.
      apply validate_parts in Hv as (e & a & _ & Ha & _).
      exists a. split; [done|]. apply (in_check_age d a _ Ha). by left.
  - rewrite (in_validate d errors _ Hv). split.
    + intros [Hin|[(e & He & Hin)|[(a & Ha & Hin)|Hin]]].
      * apply in_check_name in Hin as [H _]. other_message H.
      * apply (in_check_email d e _ He) in Hin as [[H _]|[H _]]; other_message H.
      * apply (in_check_age d a _ Ha) in Hin as [[H _]|[_ ?]]; [other_message H|done].
      * apply in_check_phone in Hin as [H _]. other_message H.
    + intros Hage. right. right. left.
      apply validate_parts in Hv as (e & a & _ & Ha & _).
      exists a. split; [done|]. apply (in_check_age d a _ Ha). by right.
Qed.

(** X5: in a returned list, "Phone number must be valid" is there
    exactly when the phone is present and truthy and, with "-" and " "
    removed, is not all digits or is shorter than ten characters; an
    empty or otherwise falsy phone is never reported. *)
Theorem phone_error_iff (d : gmap string pyval) (errors : list string) :
  Dynamodb.validate_user_data env (PDict d) = Ok errors →
  Dynamodb.phone_invalid ∈ errors ↔
  ∃ v, d !! "phone" = Some v ∧ py_truthy v = true ∧
       (isdigit (Dynamodb.stripped_phone env v) = false ∨
        Z.of_nat (String.length (Dynamodb.stripped_phone env v)) < 10).
Proof.
  intros Hv. rewrite (in_validate d errors _ Hv). split.
  - intros [Hin|[(e & He & Hin)|[(a & Ha & Hin)|Hin]]].
    + apply in_check_name in Hin as [H _]. other_message H.
    + apply (in_check_email d e _ He) in Hin as [[H _]|[H _]]; other_message H.
    + apply (in_check_age d a _ Ha) in Hin as [[H _]|[H _]]; other_message H.
    + by apply in_check_phone in Hin as [_ ?].
  - intros Hp. right. right. right. by apply in_check_phone.
Qed.

End ValidatorMessages.

(* ===================================================================== *)
(** ** The handlers, path by path *)
(* ===================================================================== *)

Section HandlerPaths.
Context (env : Env).

(** X6: a body that is JSON but not an object makes the validator raise
    [AttributeError], and the Create handler, and the Update handler
    given a user_id, answer 500 "Internal server error". *)
Theorem non_object_body_is_500 (event : gmap string pyval) (w : World)
    (body v : pyval) :
  event !! "body" = Some body →
  json_loads env body = Ok v →
  (∀ d, v ≠ PDict d) →
  Dynamodb.validate_user_data env v = Raise AttributeError ∧
  replies_error env 500 "Internal server error" (CreateUser.lambda_handler env event) w ∧
  ∀ user_id, has_user_id event user_id →
    replies_error env 500 "Internal server error" (UpdateUser.lambda_handler env event) w.
Proof.
  intros Hb Hj Hv.
  assert (Dynamodb.validate_user_data env v = Raise AttributeError) as Hval.
  { destruct v; try done. by destruct (Hv d). }
  split; [done|]. split.
  - unfold replies_error, CreateUser.lambda_handler. run_py.
    by rewrite Hb, Hj, Hval.
  - intros user_id [Hid Ht]. unfold replies_error, UpdateUser.lambda_handler. run_py.
    rewrite Hid. simpl. rewrite Ht. simpl. by rewrite Hb, Hj, Hval.
Qed.

(** X7: when the validator returns a non-empty list for the parsed body,
    the Create handler, and the Update handler given a user_id, answer
    400 with "Validation errors: " followed by the messages joined by
    ", "; nothing is drawn, stored or asked of the table. *)
Theorem invalid_record_is_400 (event : gmap string pyval) (w : World)
    (body v : pyval) (errors : list string) :
  event !! "body" = Some body →
  json_loads env body = Ok v →
  Dynamodb.validate_user_data env v = Ok errors →
  errors ≠ [] →
  replies_error env 400 ("Validation errors: " ++ join ", " errors)
    (CreateUser.lambda_handler env event) w ∧
  ∀ user_id, has_user_id event user_id →
    replies_error env 400 ("Validation errors: " ++ join ", " errors)
      (UpdateUser.lambda_handler env event) w.
Proof.
  intros Hb Hj Hval Hne. destruct errors as [|e errors]; [done|]. split.
  - unfold replies_error, CreateUser.lambda_handler. run_py.
    by rewrite Hb, Hj, Hval.
  - intros user_id [Hid Ht]. unfold replies_error, UpdateUser.lambda_handler. run_py.
    rewrite Hid. simpl. rewrite Ht. simpl. by rewrite Hb, Hj, Hval.
Qed.



(** X10: the Get handler on a string user_id under which the table holds
    a non-empty record answers 200 with that record; the table is as it
    was and the only table call is the [get_item]. *)
Theorem get_existing_is_200 (event : gmap string pyval) (w : World)
    (k : string) (item : gmap string pyval) :
  has_user_id event (PStr k) →
  table w !! k = Some item →
  dict_nonempty item = true →
  GetUser.lambda_handler env event w =
    (Ok (success_envelope (PDict {[ "user" := PDict item ]})
           (utcnow_isoformat env (ticks w))),
     tick (record_call (GetItem (PStr k)) w)).
Proof.
  intros [Hid Ht] Hk Hne. unfold GetUser.lambda_handler, Dynamodb.get_user,
    Dynamodb.get_item. run_py.
  rewrite Hid. simpl. simpl in Ht. rewrite Ht. simpl. rewrite Hk.
  rewrite lookup_singleton_eq. simpl. by rewrite Hne.
Qed.

(** X11: the Get handler on a string user_id the table does not hold
    answers 404 "User not found"; the table is as it was and the only
    table call is the [get_item]. *)
Theorem get_missing_is_404 (event : gmap string pyval) (w : World) (k : string) :
  has_user_id event (PStr k) →
  table w !! k = None →
  GetUser.lambda_handler env event w =
    (Ok (error_envelope 404 "User not found" (utcnow_isoformat env (ticks w))),
     tick (record_call (GetItem (PStr k)) w)).
Proof.
  intros [Hid Ht] Hk. unfold GetUser.lambda_handler, Dynamodb.get_user,
    Dynamodb.get_item. run_py.
  rewrite Hid. simpl. simpl in Ht. rewrite Ht. simpl. rewrite Hk.
  by rewrite lookup_empty.
Qed.

(** X12: when the path parameters are a dict, or absent, and hold no
    truthy user_id, the Get and Update handlers answer 400 "User ID is
    required" before they look at anything else. *)
Theorem missing_user_id_is_400 (event : gmap string pyval) (w : World)
    (user_id : pyval) :
  py_get (dict_get_default event "pathParameters" (PDict ∅)) "user_id" = Ok user_id →
  py_truthy user_id = false →
  replies_error env 400 "User ID is required" (GetUser.lambda_handler env event) w ∧
  replies_error env 400 "User ID is required" (UpdateUser.lambda_handler env event) w.
Proof.
  intros Hid Ht. split.
  - unfold replies_error, GetUser.lambda_handler. run_py.
    rewrite Hid. simpl. by rewrite Ht.
  - unfold replies_error, UpdateUser.lambda_handler. run_py.
    rewrite Hid. simpl. by rewrite Ht.
Qed.

(** X13: when the event holds path parameters that are not a dict, such
    as [None], reading the user_id raises [AttributeError] and the Get
    and Update handlers answer 500 "Internal server error". *)
Theorem non_dict_path_parameters_is_500 (event : gmap string pyval) (w : World)
    (v : pyval) :
  event !! "pathParameters" = Some v →
  (∀ d, v ≠ PDict d) →
  replies_error env 500 "Internal server error" (GetUser.lambda_handler env event) w ∧
  replies_error env 500 "Internal server error" (UpdateUser.lambda_handler env event) w.
Proof.
  intros Hp Hv.
  assert (py_get (dict_get_default event "pathParameters" (PDict ∅)) "user_id"
          = Raise AttributeError) as Hid.
  { unfold dict_get_default. rewrite Hp. simpl.
    destruct v; try done. by destruct (Hv d). }
  split.
  - unfold replies_error, GetUser.lambda_handler. run_py. by rewrite Hid.
  - unfold replies_error, UpdateUser.lambda_handler. run_py. by rewrite Hid.
Qed.

End HandlerPaths.

(* ===================================================================== *)
(** ** The adapter's operations together *)
(* ===================================================================== *)

Section AdapterRoundTrips.
Context (env : Env).

Lemma get_user_run k w :
  Dynamodb.get_user (PStr k) w =
  (Ok (match table w !! k with Some item => PDict item | None => PNone end),
   record_call (GetItem (PStr k)) w).
Proof.
  unfold Dynamodb.get_user, Dynamodb.get_item. run_py.
  destruct (table w !! k); [by rewrite lookup_singleton_eq|by rewrite lookup_empty].
Qed.






End AdapterRoundTrips.

(* ===================================================================== *)
(** ** One run of a route *)
(* ===================================================================== *)

(** Closes [code ∈ allowed r] and [f ∈ updatable] for literals. *)
Ltac in_list :=
  simpl; unfold Dynamodb.updatable;
  repeat (apply elem_of_cons; first [left; reflexivity | right]).

Section Steps.
Context (env : Env).

(** A run that ends in a formatted answer after one more clock reading,
    with the table untouched and at most the call [c] made. *)
Ltac quiet_leaf :=
  eexists _, _; split; [reflexivity|]; split; [in_list|];
  split; [simpl; lia|]; split; [by left|by left].

Ltac called_leaf :=
  eexists _, _; split; [reflexivity|]; split; [in_list|];
  split; [simpl; lia|]; split; [right; eexists; split; [reflexivity|done]|by left].

Lemma validate_limit_bounds n : 1 ≤ ListUsers.validate_limit n ≤ 1000.
Proof. rewrite validate_limit_clamps. unfold clamp_limit. lia. Qed.

Lemma create_step event w :
  step env (Create event) w (CreateUser.lambda_handler env event w).
Proof.
  unfold step, CreateUser.lambda_handler. run_py.
  destruct (event !! "body") as [body|]; [|quiet_leaf].
  destruct (json_loads env body) as [v|[]]; try quiet_leaf.
  destruct (Dynamodb.validate_user_data env v) as [[|e errs]|x] eqn:Hv;
    simpl; try quiet_leaf.
  destruct v; try discriminate Hv.
  rewrite create_user_run. simpl.
  eexists _, _. split; [reflexivity|]. split; [in_list|]. split; [simpl; lia|].
  split.
  - right. eexists. split; [reflexivity|done].
  - right. exists d. split; [done|]. split; [simpl; lia|done].
Qed.

Lemma get_step event w :
  step env (Get event) w (GetUser.lambda_handler env event w).
Proof.
  unfold step, GetUser.lambda_handler. run_py.
  destruct (py_get _ _) as [user_id|]; simpl; [|quiet_leaf].
  destruct (py_truthy user_id); simpl; [|quiet_leaf].
  destruct user_id as [| | | |k| |];
    try (unfold Dynamodb.get_user, Dynamodb.get_item; run_py; called_leaf).
  rewrite get_user_run. simpl.
  destruct (table w !! k) as [item|]; simpl; [|called_leaf].
  destruct (dict_nonempty item); called_leaf.
Qed.

Lemma list_users_world limit last_evaluated_key w :
  ∃ start,
    (Dynamodb.list_users env limit last_evaluated_key w).2 =
    record_call (Scan limit start) w.
Proof.
  eexists. unfold Dynamodb.list_users, Dynamodb.scan. run_py.
  destruct (_ !! "LastEvaluatedKey"); simpl.
  - destruct (py_get _ _); simpl; [|reflexivity]. by destruct (py_len _).
  - by destruct (py_len _).
Qed.

Lemma list_step event w :
  step env (List event) w (ListUsers.lambda_handler env event w).
Proof.
  unfold step, ListUsers.lambda_handler. run_py.
  destruct (py_get_default _ _ _) as [requested|]; simpl; [|quiet_leaf].
  destruct (py_int requested) as [n|]; simpl; [|quiet_leaf].
  destruct (py_get _ _) as [cursor|]; simpl; [|quiet_leaf].
  destruct (list_users_world (ListUsers.validate_limit n) cursor w) as [start Hw].
  pose proof (validate_limit_bounds n) as Hn.
  destruct (Dynamodb.list_users env _ cursor w) as [[result|e] w1];
    simpl in Hw; subst w1; simpl; [|called_leaf].
  repeat (destruct (py_getitem result _); simpl; [|called_leaf]).
  called_leaf.
Qed.

Lemma update_step event w :
  step env (Update event) w (UpdateUser.lambda_handler env event w).
Proof.
  unfold step, UpdateUser.lambda_handler. run_py.
  destruct (py_get _ _) as [user_id|]; simpl; [|quiet_leaf].
  destruct (py_truthy user_id); simpl; [|quiet_leaf].
  destruct (event !! "body") as [body|]; [|quiet_leaf].
  destruct (json_loads env body) as [v|[]]; try quiet_leaf.
  destruct (Dynamodb.validate_user_data env v) as [[|e errs]|x] eqn:Hv;
    simpl; try quiet_leaf.
  destruct v; try discriminate Hv.
  destruct user_id as [| | | |k| |];
    try (unfold Dynamodb.update_user, Dynamodb.update_item; run_py; called_leaf).
  rewrite update_user_run. simpl.
  destruct (dict_nonempty _).
  - eexists _, _. split; [reflexivity|]. split; [in_list|]. split; [simpl; lia|].
    split; [right; eexists; split; [reflexivity|done]|].
    right. exists k, d. by split.
  - eexists _, _. split; [reflexivity|]. split; [in_list|]. split; [simpl; lia|].
    split; [right; eexists; split; [reflexivity|done]|].
    right. exists k, d. by split.
Qed.

Lemma handle_step r w : step env r w (handle env r w).
Proof.
  destruct r; simpl.
  - apply create_step.
  - apply get_step.
  - apply list_step.
  - apply update_step.
Qed.

End Steps.

(* ===================================================================== *)
(** ** What every run of a route does, and what the table keeps *)
(* ===================================================================== *)

Section Routes.
Context (env : Env).

Lemma format_response_headers status body :
  Dynamodb.format_response status body !! "headers" = Some (PDict Dynamodb.cors_headers).
Proof.
  unfold Dynamodb.format_response.
  rewrite lookup_insert_ne by done. apply lookup_insert_eq.
Qed.

(** X18: no exception leaves a handler: on every event and in every
    world each route returns an envelope whose status code is one the
    route can answer (Create 200, 400, 500; Get and Update 200, 400,
    404, 500; List 200, 500) and whose headers are the fixed CORS
    headers. *)
Theorem handlers_always_answer (r : request) (w : World) :
  ∃ code body,
    (handle env r w).1 = Ok (Dynamodb.format_response code body) ∧
    code ∈ allowed r ∧
    status_code (reply (handle env r) w) = Some (PInt code) ∧
    reply (handle env r) w !! "headers" = Some (PDict Dynamodb.cors_headers).
Proof.
  destruct (handle_step env r w) as (code & body & Hr & Hc & _).
  exists code, body. split; [done|]. split; [done|].
  unfold reply, status_code. rewrite Hr.
  by rewrite format_response_status, format_response_headers.
Qed.

(** X19: a run of a route makes no table call or exactly one, and that
    one is the call of the route: [put_item] for Create, [get_item] for
    Get, [update_item] for Update, and for List a [scan] whose limit
    lies in [1, 1000]; no route calls [delete_item]. *)
Theorem handlers_call_once (r : request) (w : World) :
  calls (handle env r w).2 = calls w ∨
  ∃ c, calls (handle env r w).2 = (calls w ++ [c])%list ∧ call_of r c.
Proof. by destruct (handle_step env r w) as (_ & _ & _ & _ & _ & Hc & _). Qed.

(** X20: the Get and List handlers leave every record as it was, on
    every event. *)
Theorem get_and_list_never_write (event : gmap string pyval) (w : World) :
  table (GetUser.lambda_handler env event w).2 = table w ∧
  table (ListUsers.lambda_handler env event w).2 = table w.
Proof.
  split.
  - by destruct (handle_step env (Get event) w) as (_ & _ & _ & _ & _ & _ & [?|[]]).
  - by destruct (handle_step env (List event) w) as (_ & _ & _ & _ & _ & _ & [?|[]]).
Qed.

(** X21: no route removes a record: an identifier the table holds
    before a run is still held after it. *)
Theorem handlers_never_remove (r : request) (w : World) (k : string) :
  is_Some (table w !! k) → is_Some (table (handle env r w).2 !! k).
Proof.
  intros Hk. destruct (handle_step env r w) as (_ & _ & _ & _ & _ & _ & [Ht|Hw]).
  { by rewrite Ht. }
  destruct r; try done.
  - destruct Hw as (d & _ & _ & ->).
    destruct (decide (k = uuid4_str env (draws w))) as [->|Hne].
    + rewrite lookup_insert_eq. by eexists.
    + by rewrite lookup_insert_ne.
  - destruct Hw as (k' & d & _ & ->).
    destruct (decide (k = k')) as [->|Hne].
    + rewrite lookup_insert_eq. by eexists.
    + by rewrite lookup_insert_ne.
Qed.

(** *** The invariant of the stored records *)

Lemma created_item_valid d t n :
  Dynamodb.validate_user_data env (PDict d) = Ok [] →
  Dynamodb.validate_user_data env (PDict (created_item env d t n)) = Ok [].
Proof.
  intros (Hn & He & Hat & Ha & Hp)%validate_ok_elim.
  assert (∀ f, f = "name" ∨ f = "email" →
            created_item env d t n !! f = Some (dict_get d f)) as Hreq.
  { intros f Hf. unfold created_item. rewrite !add_optional_lookup.
    destruct Hf as [-> | ->]; rewrite !decide_False by done.
    - rewrite lookup_insert_ne by done. apply lookup_insert_eq.
    - do 2 rewrite lookup_insert_ne by done. apply lookup_insert_eq. }
  assert (∀ f, f = "age" ∨ f = "phone" → created_item env d t n !! f = d !! f) as Hopt.
  { intros f Hf. unfold created_item. rewrite !add_optional_lookup.
    destruct Hf as [-> | ->];
      rewrite ?decide_True by done; rewrite ?decide_False by done.
    - by destruct (d !! "age").
    - by destruct (d !! "phone"). }
  apply validate_ok_intro.
  - unfold dict_get at 1. rewrite Hreq by auto. done.
  - unfold dict_get at 1. rewrite Hreq by auto. done.
  - unfold dict_get at 1. rewrite Hreq by auto. done.
  - intros a. rewrite Hopt by auto. apply Ha.
  - intros p. rewrite Hopt by auto. apply Hp.
Qed.

Lemma truthy_get_lookup (d : gmap string pyval) f :
  py_truthy (dict_get d f) = true → d !! f = Some (dict_get d f).
Proof. unfold dict_get. by destruct (d !! f). Qed.

Lemma updated_item_valid d stored now :
  Dynamodb.validate_user_data env (PDict d) = Ok [] →
  age_ok stored → phone_ok env stored →
  Dynamodb.validate_user_data env
    (PDict (Dynamodb.apply_sets (("updated_at", PStr now) :: Dynamodb.field_sets d) stored))
  = Ok [].
Proof.
  intros (Hn & He & Hat & Ha & Hp)%validate_ok_elim Hsa Hsp.
  assert (∀ f, f ∈ Dynamodb.updatable →
            Dynamodb.apply_sets (("updated_at", PStr now) :: Dynamodb.field_sets d) stored
              !! f = match d !! f with Some v => Some v | None => stored !! f end)
    as Hlook.
  { intros f Hf.
    assert (Dynamodb.apply_sets (("updated_at", PStr now) :: Dynamodb.field_sets d) stored
              !! f =
            if decide (f = "updated_at") then Some (PStr now)
            else if decide (f ∈ Dynamodb.updatable)
                 then match d !! f with Some v => Some v | None => stored !! f end
                 else stored !! f) as ->.
    { destruct (decide (f = "updated_at")) as [->|Hne].
      - by destruct (updated_at_not_updatable Hf).
      - rewrite decide_True by done.
        destruct (d !! f) as [v|] eqn:Hd.
        + apply apply_sets_set.
          * simpl. apply NoDup_cons. split; [|apply field_sets_NoDup].
            rewrite field_sets_keys. intros [Hu _]. by apply updated_at_not_updatable.
          * right. by apply elem_of_field_sets.
        + rewrite apply_sets_other; [done|]. simpl. apply not_elem_of_cons.
          split; [done|]. rewrite field_sets_keys. intros [_ [v Hv]]. congruence. }
    rewrite decide_False by (intros ->; by apply updated_at_not_updatable).
    by rewrite decide_True by done. }
  apply validate_ok_intro.
  - unfold dict_get at 1. rewrite Hlook by in_list.
    by rewrite (truthy_get_lookup d "name" Hn).
  - unfold dict_get at 1. rewrite Hlook by in_list.
    by rewrite (truthy_get_lookup d "email" He).
  - unfold dict_get at 1. rewrite Hlook by in_list.
    by rewrite (truthy_get_lookup d "email" He).
  - intros a. rewrite Hlook by in_list.
    destruct (d !! "age") as [v|] eqn:Hd; [|apply Hsa].
    intros [= <-]. by apply Ha.
  - intros p. rewrite Hlook by in_list.
    destruct (d !! "phone") as [v|] eqn:Hd; [|apply Hsp].
    intros [= <-]. by apply Hp.
Qed.

Lemma kept_step r w : kept env w → kept env (handle env r w).2.
Proof.
  intros Hw. destruct (handle_step env r w) as (_ & _ & _ & _ & Ht & _ & Hwr).
  assert (∀ k item, table w !! k = Some item →
            item !! "user_id" = Some (PStr k) ∧
            (∃ j : nat, (j < ticks (handle env r w).2)%nat ∧
               item !! "updated_at" = Some (PStr (utcnow_isoformat env j)) ∧
               (item !! "created_at" = None ∨
                ∃ i : nat, (i ≤ j)%nat ∧
                  item !! "created_at" = Some (PStr (utcnow_isoformat env i)))) ∧
            Dynamodb.validate_user_data env (PDict item) = Ok []) as Hold.
  { intros k item Hk. destruct (Hw k item Hk) as (Hid & (j & Hj & Hs) & Hv).
    split; [done|]. split; [|done]. exists j. split; [lia|done]. }
  destruct Hwr as [Hsame|Hwr].
  { intros k item. rewrite Hsame. apply Hold. }
  destruct r; try done; simpl in Ht.
  - destruct Hwr as (d & Hd & Hticks & Htab). intros k item. rewrite Htab.
    destruct (decide (k = uuid4_str env (draws w))) as [->|Hne];
      [|rewrite lookup_insert_ne by done; apply Hold].
    rewrite lookup_insert_eq. intros Heq%(inj Some). subst item.
    rewrite !created_item_fixed by not_updatable.
    split; [done|]. split; [|by apply created_item_valid].
    exists (S (ticks w)). split; [lia|]. split; [done|].
    right. exists (ticks w). split; [lia|done].
  - destruct Hwr as (k' & d & Hd & Htab). intros k item. rewrite Htab.
    destruct (decide (k = k')) as [->|Hne];
      [|rewrite lookup_insert_ne by done; apply Hold].
    rewrite lookup_insert_eq. intros Heq%(inj Some). subst item.
    set (stored0 := default {[ "user_id" := PStr k' ]} (table w !! k')).
    set (sets := ("updated_at", PStr (utcnow_isoformat env (ticks w)))
                 :: Dynamodb.field_sets d).
    assert (Dynamodb.apply_sets sets stored0 !! "user_id" = stored0 !! "user_id")
      as ->.
    { subst sets. rewrite updated_item_lookup. rewrite decide_False by done.
      by rewrite decide_False by not_updatable. }
    assert (Dynamodb.apply_sets sets stored0 !! "created_at" = stored0 !! "created_at")
      as ->.
    { subst sets. rewrite updated_item_lookup. rewrite decide_False by done.
      by rewrite decide_False by not_updatable. }
    assert (Dynamodb.apply_sets sets stored0 !! "updated_at"
            = Some (PStr (utcnow_isoformat env (ticks w)))) as ->.
    { subst sets. rewrite updated_item_lookup. by rewrite decide_True by done. }
    subst stored0 sets.
    destruct (table w !! k') as [stored|] eqn:Hk; simpl.
    + destruct (Hw k' stored Hk) as (Hid & (j & Hj & _ & Hc) & Hv).
      apply validate_ok_elim in Hv as (_ & _ & _ & Hsa & Hsp).
      split; [done|]. split; [|by apply updated_item_valid].
      exists (ticks w). split; [lia|]. split; [done|].
      destruct Hc as [Hc|(i & Hi & Hc)]; [by left|].
      right. exists i. split; [lia|done].
    + split; [by rewrite lookup_singleton_eq|]. split.
      * exists (ticks w). split; [lia|]. split; [done|].
        left. by rewrite lookup_singleton_ne.
      * apply updated_item_valid; [done| |].
        -- intros a Ha. by rewrite lookup_singleton_ne in Ha.
        -- intros p Hp. by rewrite lookup_singleton_ne in Hp.
Qed.

Lemma reachable_kept w : reachable env w → kept env w.
Proof.
  induction 1 as [w Hw | w r _ IH].
  - intros k item Hk. rewrite Hw in Hk. by rewrite lookup_empty in Hk.
  - by apply kept_step.
Qed.

(** X22: in every world the handlers reach from an empty table, the
    [user_id] attribute of a stored record is the key it is stored
    under. *)
Theorem stored_user_id_is_key (w : World) (k : string) (item : gmap string pyval) :
  reachable env w →
  table w !! k = Some item →
  item !! "user_id" = Some (PStr k).
Proof. intros Hr Hk. by destruct (reachable_kept w Hr k item Hk) as (? & _). Qed.

(** X23: with a clock that never runs backwards, in every world the
    handlers reach from an empty table, a stored record that has a
    [created_at] has it no later than its [updated_at]. *)
Theorem created_at_before_updated_at (w : World) (k : string)
    (item : gmap string pyval) (c : pyval) :
  clock_monotone env →
  reachable env w →
  table w !! k = Some item →
  item !! "created_at" = Some c →
  ∃ created updated,
    c = PStr created ∧
    item !! "updated_at" = Some (PStr updated) ∧
    String.leb created updated = true.
Proof.
  intros Hm Hr Hk Hc.
  destruct (reachable_kept w Hr k item Hk) as (_ & (j & _ & Hu & Hcr) & _).
  destruct Hcr as [Hcr|(i & Hi & Hcr)]; [congruence|].
  rewrite Hcr in Hc. injection Hc as <-.
  eexists _, _. split; [done|]. split; [done|]. by apply Hm.
Qed.

(** X24: in every world the handlers reach from an empty table, every
    stored record passes the validator. *)
Theorem stored_records_are_valid (w : World) (k : string) (item : gmap string pyval) :
  reachable env w →
  table w !! k = Some item →
  Dynamodb.validate_user_data env (PDict item) = Ok [].
Proof. intros Hr Hk. by destruct (reachable_kept w Hr k item Hk) as (_ & _ & ?). Qed.

End Routes.

(* ===================================================================== *)
(** ** A page of the List handler *)
(* ===================================================================== *)

Section ListPage.
Context (env : Env).

(** X25: when the limit converts to an integer, the List handler scans
    once with the clamped limit, resuming after the [last_evaluated_key]
    query parameter when that is truthy and from the start otherwise;
    on a response whose items are a list it answers 200 with those
    users, their number as [count], and as [next_token] the [user_id] of
    the response's [LastEvaluatedKey], or [None] when the response has
    none. *)
Theorem list_page_is_200 (event qp : gmap string pyval) (n : Z) (w : World)
    (users : list pyval) :
  ListUsers.query_parameters event = PDict qp →
  py_int (dict_get_default qp "limit" (PInt 100)) = Ok n →
  let cursor := dict_get qp "last_evaluated_key" in
  let start := if py_truthy cursor
               then Some (PDict {[ "user_id" := cursor ]}) else None in
  let response := scan_page env (table w) (ListUsers.validate_limit n) start in
  dict_get_default response "Items" (PList []) = PList users →
  (∀ v, response !! "LastEvaluatedKey" = Some v → ∃ key, v = PDict key) →
  ListUsers.lambda_handler env event w =
    (Ok (success_envelope
           (PDict {[ "users" := PList users;
                     "count" := PInt (Z.of_nat (length users));
                     "next_token" :=
                       match response !! "LastEvaluatedKey" with
                       | Some (PDict key) => dict_get key "user_id"
                       | _ => PNone
                       end ]})
           (utcnow_isoformat env (ticks w))),
     tick (record_call (Scan (ListUsers.validate_limit n) start) w)).
Proof.
  intros Hq Hn cursor start response Hitems Hkey.
  unfold ListUsers.lambda_handler, Dynamodb.list_users, Dynamodb.scan. run_py.
  rewrite Hq. simpl. rewrite Hn. simpl.
  change (dict_get_default qp "last_evaluated_key" PNone) with cursor.
  fold start. fold response.
  rewrite Hitems. simpl.
  destruct (response !! "LastEvaluatedKey") as [v|] eqn:Hv; simpl.
  - destruct (Hkey v eq_refl) as [key ->]. unfold dict_get_default. rewrite Hv. simpl.
    rewrite lookup_insert_eq. simpl.
    rewrite lookup_insert_ne by done. rewrite lookup_insert_eq. simpl.
    do 2 rewrite lookup_insert_ne by done. rewrite lookup_singleton_eq. done.
  - rewrite lookup_insert_eq. simpl.
    rewrite lookup_insert_ne by done. rewrite lookup_insert_eq. simpl.
    do 2 rewrite lookup_insert_ne by done. rewrite lookup_singleton_eq. done.
Qed.

End ListPage.

(* ===================================================================== *)
(** ** The properties above on the sample requests *)
(* ===================================================================== *)

Lemma sample_john_posted_reachable : reachable Sample.env Sample.john_posted.
Proof.
  apply (reachable_handle Sample.env Sample.empty_world (Create Sample.john_request)).
  by apply reachable_empty.
Qed.

Lemma sample_john_posted_table :
  table Sample.john_posted !! Sample.john_id = Some Sample.john_item.
Proof. vm_compute. reflexivity. Qed.

(** Witness of X2: a record with only an age. *)
Lemma name_error_iff_witness :
  Dynamodb.validate_user_data Sample.env (PDict Sample.age_only)
    = Ok ["Name is required"; "Email is required"] ∧
  ("Name is required" ∈ ["Name is required"; "Email is required"] ↔
   py_truthy (dict_get Sample.age_only "name") = false).
Proof.
  assert (Dynamodb.validate_user_data Sample.env (PDict Sample.age_only)
          = Ok ["Name is required"; "Email is required"]) as Hv
    by (vm_compute; reflexivity).
  split; [exact Hv|].
  exact (name_error_iff Sample.env Sample.age_only _ Hv).
Defined.

(** Witness of X3: John with an email that holds no "@". *)
Lemma email_errors_iff_witness :
  Dynamodb.validate_user_data Sample.env (PDict Sample.john_without_at)
    = Ok ["Email must be valid"] ∧
  ("Email must be valid" ∈ ["Email must be valid"] ↔
   py_truthy (dict_get Sample.john_without_at "email") = true ∧
   py_contains_at (dict_get Sample.john_without_at "email") = Ok false).
Proof.
  assert (Dynamodb.validate_user_data Sample.env (PDict Sample.john_without_at)
          = Ok ["Email must be valid"]) as Hv
    by (vm_compute; reflexivity).
  split; [exact Hv|].
  exact (proj1 (proj2 (email_errors_iff Sample.env Sample.john_without_at _ Hv))).
Defined.

(** Witness of X4: John aged 200. *)
Lemma age_errors_iff_witness :
  Dynamodb.validate_user_data Sample.env (PDict Sample.john_aged_200)
    = Ok ["Age must be between 0 and 150"] ∧
  ("Age must be between 0 and 150" ∈ ["Age must be between 0 and 150"] ↔
   ∃ v n, Sample.john_aged_200 !! "age" = Some v ∧ py_int v = Ok n ∧ (n < 0 ∨ 150 < n)).
Proof.
  assert (Dynamodb.validate_user_data Sample.env (PDict Sample.john_aged_200)
          = Ok ["Age must be between 0 and 150"]) as Hv
    by (vm_compute; reflexivity).
  split; [exact Hv|].
  exact (proj1 (age_errors_iff Sample.env Sample.john_aged_200 _ Hv)).
Defined.

(** Witness of X5: John with a phone number of six digits. *)
Lemma phone_error_iff_witness :
  Dynamodb.validate_user_data Sample.env (PDict Sample.john_short_phone)
    = Ok ["Phone number must be valid"] ∧
  ("Phone number must be valid" ∈ ["Phone number must be valid"] ↔
   ∃ v, Sample.john_short_phone !! "phone" = Some v ∧ py_truthy v = true ∧
        (isdigit (Dynamodb.stripped_phone Sample.env v) = false ∨
         Z.of_nat (String.length (Dynamodb.stripped_phone Sample.env v)) < 10)).
Proof.
  assert (Dynamodb.validate_user_data Sample.env (PDict Sample.john_short_phone)
          = Ok ["Phone number must be valid"]) as Hv
    by (vm_compute; reflexivity).
  split; [exact Hv|].
  exact (phone_error_iff Sample.env Sample.john_short_phone _ Hv).
Defined.

(** Witness of X6: the body [[1, 2]]. *)
Lemma non_object_body_is_500_witness :
  json_loads Sample.env (PStr "[1, 2]") = Ok (PList [PInt 1; PInt 2]) ∧
  Dynamodb.validate_user_data Sample.env (PList [PInt 1; PInt 2]) = Raise AttributeError ∧
  replies_error Sample.env 500 "Internal server error"
    (CreateUser.lambda_handler Sample.env Sample.array_with_id) Sample.empty_world ∧
  replies_error Sample.env 500 "Internal server error"
    (UpdateUser.lambda_handler Sample.env Sample.array_with_id) Sample.empty_world.
Proof.
  assert (json_loads Sample.env (PStr "[1, 2]") = Ok (PList [PInt 1; PInt 2])) as Hj
    by (vm_compute; reflexivity).
  destruct (non_object_body_is_500 Sample.env Sample.array_with_id Sample.empty_world
              (PStr "[1, 2]") (PList [PInt 1; PInt 2]) eq_refl Hj)
    as (Hv & Hc & Hu).
  { intros d. discriminate. }
  split; [exact Hj|]. split; [exact Hv|]. split; [exact Hc|].
  apply (Hu (PStr "u-1")). split; reflexivity.
Defined.

(** Witness of X7: a body with only an age. *)
Lemma invalid_record_is_400_witness :
  json_loads Sample.env Sample.age_only_body = Ok (PDict Sample.age_only) ∧
  Dynamodb.validate_user_data Sample.env (PDict Sample.age_only)
    = Ok ["Name is required"; "Email is required"] ∧
  replies_error Sample.env 400 "Validation errors: Name is required, Email is required"
    (CreateUser.lambda_handler Sample.env Sample.age_only_with_id) Sample.empty_world ∧
  replies_error Sample.env 400 "Validation errors: Name is required, Email is required"
    (UpdateUser.lambda_handler Sample.env Sample.age_only_with_id) Sample.empty_world.
Proof.
  assert (json_loads Sample.env Sample.age_only_body = Ok (PDict Sample.age_only)) as Hj
    by (vm_compute; reflexivity).
  assert (Dynamodb.validate_user_data Sample.env (PDict Sample.age_only)
          = Ok ["Name is required"; "Email is required"]) as Hv
    by (vm_compute; reflexivity).
  destruct (invalid_record_is_400 Sample.env Sample.age_only_with_id Sample.empty_world
              Sample.age_only_body (PDict Sample.age_only)
              ["Name is required"; "Email is required"] eq_refl Hj Hv)
    as (Hc & Hu).
  { discriminate. }
  split; [exact Hj|]. split; [exact Hv|]. split; [exact Hc|].
  apply (Hu (PStr "u-1")). split; reflexivity.
Defined.




(** Witness of X10: John fetched after he was created. *)
Lemma get_existing_is_200_witness :
  has_user_id Sample.get_john (PStr Sample.john_id) ∧
  table Sample.john_created !! Sample.john_id = Some Sample.john_item ∧
  (GetUser.lambda_handler Sample.env Sample.get_john Sample.john_created).1 =
    Ok (success_envelope (PDict {[ "user" := PDict Sample.john_item ]})
          "2023-01-01T00:00:00.000003").
Proof.
  assert (has_user_id Sample.get_john (PStr Sample.john_id)) as Hid
    by (split; reflexivity).
  assert (table Sample.john_created !! Sample.john_id = Some Sample.john_item) as Hk
    by (vm_compute; reflexivity).
  split; [exact Hid|]. split; [exact Hk|].
  rewrite (get_existing_is_200 Sample.env Sample.get_john Sample.john_created
             Sample.john_id Sample.john_item Hid Hk eq_refl).
  reflexivity.
Defined.

(** Witness of X11: "ghost" fetched from the empty table. *)
Lemma get_missing_is_404_witness :
  has_user_id Sample.get_ghost (PStr "ghost") ∧
  (GetUser.lambda_handler Sample.env Sample.get_ghost Sample.empty_world).1 =
    Ok (error_envelope 404 "User not found" "2023-01-01T00:00:00.000001").
Proof.
  assert (has_user_id Sample.get_ghost (PStr "ghost")) as Hid by (split; reflexivity).
  split; [exact Hid|].
  rewrite (get_missing_is_404 Sample.env Sample.get_ghost Sample.empty_world "ghost"
             Hid eq_refl).
  reflexivity.
Defined.

(** Witness of X12: a request without path parameters. *)
Lemma missing_user_id_is_400_witness :
  Sample.malformed_without_id !! "pathParameters" = None ∧
  replies_error Sample.env 400 "User ID is required"
    (GetUser.lambda_handler Sample.env Sample.malformed_without_id) Sample.empty_world ∧
  replies_error Sample.env 400 "User ID is required"
    (UpdateUser.lambda_handler Sample.env Sample.malformed_without_id) Sample.empty_world.
Proof.
  split; [reflexivity|].
  apply (missing_user_id_is_400 Sample.env Sample.malformed_without_id
           Sample.empty_world PNone); reflexivity.
Defined.

(** Witness of X13: path parameters that are [None]. *)
Lemma non_dict_path_parameters_is_500_witness :
  Sample.null_path !! "pathParameters" = Some PNone ∧
  replies_error Sample.env 500 "Internal server error"
    (GetUser.lambda_handler Sample.env Sample.null_path) Sample.empty_world ∧
  replies_error Sample.env 500 "Internal server error"
    (UpdateUser.lambda_handler Sample.env Sample.null_path) Sample.empty_world.
Proof.
  split; [reflexivity|].
  apply (non_dict_path_parameters_is_500 Sample.env Sample.null_path
           Sample.empty_world PNone); [reflexivity|].
  intros d. discriminate.
Defined.

(** Witness of X21: John is still stored after an update request. *)
Lemma handlers_never_remove_witness :
  is_Some (table Sample.john_created !! Sample.john_id) ∧
  is_Some (table (handle Sample.env (Update Sample.john_update_request)
                    Sample.john_created).2 !! Sample.john_id).
Proof.
  assert (is_Some (table Sample.john_created !! Sample.john_id)) as Hk.
  { exists Sample.john_item. vm_compute. reflexivity. }
  split; [exact Hk|].
  exact (handlers_never_remove Sample.env (Update Sample.john_update_request)
           Sample.john_created Sample.john_id Hk).
Defined.

(** Witness of X22: John's record after the Create handler stored it. *)
Lemma stored_user_id_is_key_witness :
  reachable Sample.env Sample.john_posted ∧
  table Sample.john_posted !! Sample.john_id = Some Sample.john_item ∧
  Sample.john_item !! "user_id" = Some (PStr Sample.john_id).
Proof.
  split; [exact sample_john_posted_reachable|].
  split; [exact sample_john_posted_table|].
  exact (stored_user_id_is_key Sample.env Sample.john_posted Sample.john_id
           Sample.john_item sample_john_posted_reachable sample_john_posted_table).
Defined.

(** Witness of X23: John's record after the Create handler stored it. *)
Lemma created_at_before_updated_at_witness :
  clock_monotone Sample.env ∧
  reachable Sample.env Sample.john_posted ∧
  Sample.john_item !! "created_at" = Some (PStr "2023-01-01T00:00:00.000001") ∧
  ∃ created updated,
    PStr "2023-01-01T00:00:00.000001" = PStr created ∧
    Sample.john_item !! "updated_at" = Some (PStr updated) ∧
    String.leb created updated = true.
Proof.
  split; [exact sample_clock_monotone|].
  split; [exact sample_john_posted_reachable|].
  split; [reflexivity|].
  exact (created_at_before_updated_at Sample.env Sample.john_posted Sample.john_id
           Sample.john_item (PStr "2023-01-01T00:00:00.000001")
           sample_clock_monotone sample_john_posted_reachable
           sample_john_posted_table eq_refl).
Defined.

(** Witness of X24: John's record after the Create handler stored it. *)
Lemma stored_records_are_valid_witness :
  reachable Sample.env Sample.john_posted ∧
  table Sample.john_posted !! Sample.john_id = Some Sample.john_item ∧
  Dynamodb.validate_user_data Sample.env (PDict Sample.john_item) = Ok [].
Proof.
  split; [exact sample_john_posted_reachable|].
  split; [exact sample_john_posted_table|].
  exact (stored_records_are_valid Sample.env Sample.john_posted Sample.john_id
           Sample.john_item sample_john_posted_reachable sample_john_posted_table).
Defined.

(** Witness of X25: a page of ten resumed after "u-1", on the table that
    holds John. *)
Lemma list_page_is_200_witness :
  ListUsers.query_parameters Sample.page_query =
    PDict {[ "limit" := PStr "10"; "last_evaluated_key" := PStr "u-1" ]} ∧
  ListUsers.lambda_handler Sample.env Sample.page_query Sample.john_created =
    (Ok (success_envelope
           (PDict {[ "users" := PList [PDict Sample.john_item];
                     "count" := PInt 1;
                     "next_token" := PNone ]})
           "2023-01-01T00:00:00.000003"),
     tick (record_call (Scan 10 (Some (PDict {[ "user_id" := PStr "u-1" ]})))
             Sample.john_created)).
Proof.
  split; [reflexivity|].
  rewrite (list_page_is_200 Sample.env Sample.page_query
             {[ "limit" := PStr "10"; "last_evaluated_key" := PStr "u-1" ]} 10
             Sample.john_created [PDict Sample.john_item] eq_refl eq_refl).
  - vm_compute. reflexivity.
  - vm_compute. reflexivity.
  - intros v Hv. vm_compute in Hv. discriminate Hv.
Defined.
